(** * gotion: identifier normalisation, record coercion and the insert run

    A shallow embedding of [main.go]: the two regular expressions and
    [cleanDatabaseID], the schema-driven [convertToNotionProperties], and
    the [Run] function of the [insert] command over an explicit model of
    the Notion client, the file system and standard output. *)

From Stdlib Require Import Floats.PrimFloat Strings.Ascii Strings.String.
From stdpp Require Import gmap strings list fin_maps.

Set Default Proof Using "Type".
#[local] Set Warnings "-register-all".

(** ** Go strings: the functions of package [strings] the program calls *)

Module Strings.

(** [strings.HasPrefix(s, prefix)]. *)
Fixpoint HasPrefix (s prefix : string) : bool :=
  match prefix, s with
  | EmptyString, _ => true
  | String _ _, EmptyString => false
  | String p prefix', String c s' => Ascii.eqb c p && HasPrefix s' prefix'
  end.

(** [strings.Contains(s, substr)]: [substr] starts at some offset of [s]. *)
Fixpoint Contains (s substr : string) : bool :=
  HasPrefix s substr ||
  match s with
  | EmptyString => false
  | String _ s' => Contains s' substr
  end.

(** [strings.Split(s, sep)] for a one-byte separator, the only way the
    program calls it ([strings.Split(input, "/")]): the pieces between
    the separators, in order; never an empty slice. *)
Fixpoint Split (s : string) (sep : ascii) : list string :=
  match s with
  | EmptyString => [EmptyString]
  | String c s' =>
      if Ascii.eqb c sep then EmptyString :: Split s' sep
      else match Split s' sep with
           | [] => [String c EmptyString]
           | part :: parts => String c part :: parts
           end
  end.

End Strings.

(** [s[lo:hi]] on a Go string (bytes [lo] up to [hi], excluded). *)
Definition slice (s : string) (lo hi : nat) : string :=
  String.substring lo (hi - lo) s.

(** [parts[len(parts)-1]]; [strings.Split] never returns an empty slice,
    so the index is always in range (see [Split_not_nil]). *)
Definition lastElem (parts : list string) : string :=
  List.last parts EmptyString.

(** ** Regular expressions: the fragment the two patterns are written in

    Both patterns of the program are anchored ([^...$]) sequences of
    character classes with a fixed repetition count and literal bytes. *)

Module regexp.

Inductive item : Type :=
  | Rep (class : string) (n : nat)   (* [class]{n} *)
  | Lit (c : ascii).                 (* a literal byte *)

(** An anchored pattern [^ items $]. *)
Definition Regexp : Type := list item.

Definition inClass (c : ascii) (class : string) : bool :=
  existsb (Ascii.eqb c) (list_ascii_of_string class).

(** Consume exactly [n] bytes of the class; the rest of the input. *)
Fixpoint matchRep (class : string) (n : nat) (s : string) : option string :=
  match n with
  | O => Some s
  | S n' =>
      match s with
      | EmptyString => None
      | String c s' => if inClass c class then matchRep class n' s' else None
      end
  end.

(** Every byte of [s] is in the class. *)
Fixpoint allIn (class : string) (s : string) : bool :=
  match s with
  | EmptyString => true
  | String c s' => inClass c class && allIn class s'
  end.

(** [r.MatchString(s)]. *)
Fixpoint MatchString (r : Regexp) (s : string) : bool :=
  match r with
  | [] => match s with EmptyString => true | String _ _ => false end
  | Rep class n :: r' =>
      match matchRep class n s with
      | Some rest => MatchString r' rest
      | None => false
      end
  | Lit c :: r' =>
      match s with
      | EmptyString => false
      | String c' s' => Ascii.eqb c' c && MatchString r' s'
      end
  end.

End regexp.

Import regexp.

(** The class [[a-fA-F0-9]]. *)
Definition hexClass : string := "abcdefABCDEF0123456789".

(** ["^[a-fA-F0-9]{8}-[a-fA-F0-9]{4}-[a-fA-F0-9]{4}-[a-fA-F0-9]{4}-[a-fA-F0-9]{12}$"] *)
Definition uuidRegexp : Regexp :=
  [Rep hexClass 8; Lit "-"; Rep hexClass 4; Lit "-"; Rep hexClass 4; Lit "-";
   Rep hexClass 4; Lit "-"; Rep hexClass 12].

(** ["^[a-fA-F0-9]{32}$"] *)
Definition hex32Regexp : Regexp := [Rep hexClass 32].

(** [isValidUUID]: the input is a valid UUID. *)
Definition isValidUUID (uuid : string) : bool :=
  MatchString uuidRegexp uuid.

(** [cleanDatabaseID]. The Go function calls itself on the last path
    segment of a Notion URL, and nothing in it bounds that recursion, so the
    embedding counts calls: [fuel] is the number of nested calls allowed and
    [None] means that many calls did not reach a [return]. *)
Fixpoint cleanDatabaseID (fuel : nat) (input : string) : option string :=
  match fuel with
  | O => None
  | S fuel' =>
      (* If it contains a dash already, it might be a proper UUID format *)
      if Strings.Contains input "-" then Some input
      (* Check if it's a 32-character hex string without dashes *)
      else if MatchString hex32Regexp input then
        Some (slice input 0 8 +:+ "-" +:+ slice input 8 12 +:+ "-" +:+
              slice input 12 16 +:+ "-" +:+ slice input 16 20 +:+ "-" +:+
              slice input 20 32)
      (* Extract ID from URL if it appears to be a Notion URL *)
      else if Strings.Contains input "notion.so" then
        let parts := Strings.Split input "/" in
        let lastPart := lastElem parts in
        if (32 <=? String.length lastPart)%nat then cleanDatabaseID fuel' lastPart
        else Some input
      else Some input
  end.

(** The call [cleanDatabaseID(input)] returns [output]. *)
Definition cleanDatabaseID_returns (input output : string) : Prop :=
  ∃ fuel, cleanDatabaseID fuel input = Some output.

(** ** Data model *)

(** What [encoding/json] decodes into an [interface{}]: [nil], [bool],
    [float64], [string], [[]interface{}] and [map[string]interface{}]. *)
Inductive value : Type :=
  | Nil
  | Bool (b : bool)
  | Float64 (f : float)
  | Str (s : string)
  | Slice (elems : list value)
  | Map (m : gmap string value).

(** [type RawPageData map[string]interface{}]. *)
Abbreviation RawPageData := (gmap string value) (only parsing).

(** Modelled from the spec: [notionapi.PropertyConfigType], the type tag of
    a column, declared by the client library and not by this repository.
    The constructors are the constants [main.go] names
    ([notionapi.PropertyConfigTypeTitle], ...); [PropertyConfigTypeOther]
    is any other tag (the library's type is an open string type). *)
Inductive PropertyConfigType : Type :=
  | PropertyConfigTypeTitle
  | PropertyConfigTypeRichText
  | PropertyConfigTypeNumber
  | PropertyConfigTypeSelect
  | PropertyConfigTypeMultiSelect
  | PropertyConfigTypeDate
  | PropertyConfigTypePeople
  | PropertyConfigTypeFiles
  | PropertyConfigTypeCheckbox
  | PropertyConfigTypeURL
  | PropertyConfigTypeEmail
  | PropertyConfigTypePhoneNumber
  | PropertyConfigTypeFormula
  | PropertyConfigTypeRelation
  | PropertyConfigTypeRollup
  | PropertyConfigTypeOther (tag : string).

(** [notionapi.Text], [notionapi.RichText] (its [Text] field is a pointer)
    and the three [notionapi.Property] implementations the program builds. *)
Record Text : Type := mkText { Content : string }.

Record RichText : Type := mkRichText { RichText_Text : option Text }.

Inductive Property : Type :=
  | TitleProperty (Title : list RichText)
  | RichTextProperty (RichText : list RichText)
  | NumberProperty (Number : float).

(** [notionapi.Properties] is [map[string]Property]. *)
Abbreviation Properties := (gmap string Property) (only parsing).

(** [type PageData struct { Properties notionapi.Properties }]. *)
Record PageData : Type := mkPageData { PageData_Properties : Properties }.

(** [notionapi.Database], as far as the program reads it: the title and
    the columns, each column reduced to what [GetType()] returns. *)
Record Database : Type := mkDatabase {
  Database_Title : list RichText;
  Database_Properties : gmap string PropertyConfigType
}.

(** A Go [error], identified with its [Error()] text; [None] is [nil]. *)
Definition error : Type := string.

(** ** convertToNotionProperties *)

(** [if notionProp != nil { result.Properties[propName] = notionProp }] *)
Definition storeProperty (propName : string) (notionProp : option Property)
    (result : Properties) : Properties :=
  match notionProp with
  | Some p => <[propName := p]> result
  | None => result
  end.

(** The body of the loop over [props], as a function of the map built so
    far. A [continue] leaves the map as it is. *)
Definition convertProperty (schema : Database) (result : Properties)
    (propName : string) (propValue : value) : Properties :=
  match Database_Properties schema !! propName with
  | None => result (* Skip properties not in the database schema *)
  | Some schemaProp =>
      match schemaProp with
      | PropertyConfigTypeTitle =>
          storeProperty propName
            match propValue with
            | Str strValue =>
                Some (TitleProperty [mkRichText (Some (mkText strValue))])
            | _ => None
            end result
      | PropertyConfigTypeRichText =>
          storeProperty propName
            match propValue with
            | Str strValue =>
                Some (RichTextProperty [mkRichText (Some (mkText strValue))])
            | _ => None
            end result
      | PropertyConfigTypeNumber =>
          storeProperty propName
            match propValue with
            | Float64 numValue => Some (NumberProperty numValue)
            | _ => None
            end result
      | _ => result (* Skip unsupported property types *)
      end
  end.

(** [for propName, propValue := range props { ... }] over the entries in
    the order the runtime hands them out. *)
Definition convertEntries (schema : Database)
    (entries : list (string * value)) (result : Properties) : Properties :=
  foldl (λ result entry, convertProperty schema result entry.1 entry.2)
        result entries.

(** [convertToNotionProperties]. Go leaves the iteration order of a map
    unspecified; the embedding ranges over [map_to_list props], and
    [convertEntries_Permutation] shows the order has no effect. *)
Definition convertToNotionProperties (raw : RawPageData) (schema : Database)
    : PageData * option error :=
  let result := ∅ in
  match raw !! "properties" with
  | Some (Map props) =>
      (mkPageData (convertEntries schema (map_to_list props) result), None)
  | _ =>
      (mkPageData result, Some "expected key 'properties' in data, got none")
  end.

(** What one field contributes to the result: the property the loop body
    stores for it, if any. *)
Definition fieldProperty (schema : Database) (propName : string)
    (propValue : value) : option Property :=
  match Database_Properties schema !! propName with
  | Some PropertyConfigTypeTitle =>
      match propValue with
      | Str strValue =>
          Some (TitleProperty [mkRichText (Some (mkText strValue))])
      | _ => None
      end
  | Some PropertyConfigTypeRichText =>
      match propValue with
      | Str strValue =>
          Some (RichTextProperty [mkRichText (Some (mkText strValue))])
      | _ => None
      end
  | Some PropertyConfigTypeNumber =>
      match propValue with
      | Float64 numValue => Some (NumberProperty numValue)
      | _ => None
      end
  | _ => None
  end.

(** The entries of a coerced record under one name. *)
Definition entriesNamed (propName : string) (properties : Properties)
    : list (string * Property) :=
  List.filter (λ entry, bool_decide (entry.1 = propName))
              (map_to_list properties).

(** The number of dropped fields as the specification's contract
    [coerce(raw, schema) -> (CoercedRecord, droppedFieldCount)] words it
    (section 4.2, steps 2a, 2b and 3): a field is dropped when its name is
    missing from the schema, when its column is Title or RichText and the
    value is not a string, when its column is Number and the value is not
    numeric, and always for any other column type. The Go function has no
    such result; these two definitions exist to compare the contract with
    it. *)
Definition spec_dropped (schema : Database) (field : string * value) : bool :=
  match Database_Properties schema !! field.1 with
  | None => true
  | Some PropertyConfigTypeTitle | Some PropertyConfigTypeRichText =>
      match field.2 with Str _ => false | _ => true end
  | Some PropertyConfigTypeNumber =>
      match field.2 with Float64 _ => false | _ => true end
  | Some _ => true
  end.

Definition spec_droppedFieldCount (raw : RawPageData) (schema : Database) : nat :=
  match raw !! "properties" with
  | Some (Map props) =>
      length (List.filter (spec_dropped schema) (map_to_list props))
  | _ => 0
  end.

(** A schema and records to run the coercion on. *)
Definition sampleSchema : Database :=
  mkDatabase []
    {[ "Name" := PropertyConfigTypeTitle;
       "Notes" := PropertyConfigTypeRichText;
       "Age" := PropertyConfigTypeNumber;
       "Done" := PropertyConfigTypeCheckbox ]}.

(** [{"properties": {"Name": "A", "Notes": "n", "Age": 25}}] *)
Definition sampleRecord : RawPageData :=
  {[ "properties" :=
       Map {[ "Name" := Str "A"; "Notes" := Str "n"; "Age" := Float64 25 ]} ]}.

(** [{"properties": {"Name": 5, "Age": "old", "Done": true, "Unknown": "x"}}] *)
Definition sampleMismatch : RawPageData :=
  {[ "properties" :=
       Map {[ "Name" := Float64 5; "Age" := Str "old"; "Done" := Bool true;
              "Unknown" := Str "x" ]} ]}.

(** [{"properties": {}}] and [{"props": {"Name": "A"}}] *)
Definition sampleEmpty : RawPageData := {[ "properties" := Map ∅ ]}.

Definition sampleMalformed : RawPageData :=
  {[ "props" := Map {[ "Name" := Str "A" ]} ]}.

(** ** The insert command *)

(** [notionapi.PageCreateRequest] with its [Parent.DatabaseID], and the one
    field of the created [notionapi.Page] the program reads. *)
Record PageCreateRequest : Type := mkPageCreateRequest {
  Parent_DatabaseID : string;
  Request_Properties : Properties
}.

Record Page : Type := mkPage { URL : string }.

(** The flags [--db], [--data], [--api-key] and [--debug] as
    [cmd.Flags().GetString] and [GetBool] return them. *)
Record Flags : Type := mkFlags {
  flag_db : string;
  flag_data : string;
  flag_api_key : string;
  flag_debug : bool
}.

(** What the command writes to standard output. One constructor stands for
    one print statement of [Run], or for a run of consecutive print
    statements with no branch between them, and carries the values the
    format string is given; the fixed text is not modelled. *)
Inductive message : Type :=
  | MsgFlagsRequired
  | MsgInvalidDatabaseID
  | MsgNoAPIKey
  | MsgReading (dataFile : string)
  | MsgReadError (dataFile : string) (err : error)
  | MsgRawJSON (content : string)
  | MsgParseError (err : error)
  | MsgFound (records : nat) (dbID : string)
  | MsgDatabaseError (err : error)
  | MsgProcessing (number : nat)
  | MsgConvertError (number : nat) (err : error)
  | MsgInserting (number : nat)
  | MsgUnknownProperty (propName : string) (available : list string)
  | MsgRequestJSON (requestJSON : string)
  | MsgFailed (err : error)
  | MsgPermissionHelp
  | MsgMoreHelp
  | MsgSuccess
  | MsgPageURL (url : string)
  | MsgFinished (successCount total : nat)
  | MsgTip
  | MsgNoneInserted.

(** What the process does that is visible outside it, in order. *)
Inductive event : Type :=
  | Stdout (m : message)
  | DatabaseGet (token dbID : string)
  | PageCreate (token : string) (request : PageCreateRequest).

(** How a piece of [Run] ends: it falls through with a value, it calls
    [os.Exit(code)], or [cleanDatabaseID] exhausted its calls. *)
Inductive outcome (A : Type) : Type :=
  | Returned (a : A)
  | Exited (code : Z)
  | OutOfFuel.
Arguments Returned {A} a.
Arguments Exited {A} code.
Arguments OutOfFuel {A}.

(** The exit code of the process: [main] ignores what [rootCmd.Execute()]
    returns, so a [Run] that returns ends the process with code 0. *)
Definition exitCode (o : outcome unit) : option Z :=
  match o with
  | Returned _ => Some 0%Z
  | Exited code => Some code
  | OutOfFuel => None
  end.

(** The [PageCreate] calls of a trace, in order. *)
Definition submissions (trace : list event) : list PageCreateRequest :=
  omap (λ e, match e with PageCreate _ request => Some request | _ => None end)
       trace.

Section InsertCmd.

(** The remote service and its state. *)
Context {World : Type}.
(** [os.Getenv], [os.ReadFile] (the content or an error). *)
Variable Getenv : string → string.
Variable ReadFile : string → string + error.
(** [json.Unmarshal(content, &rawData)] into [[]RawPageData] and
    [json.Unmarshal(content, &singleRawData)] into [RawPageData]. *)
Variable Unmarshal_slice : string → list RawPageData + error.
Variable Unmarshal_single : string → RawPageData + error.
(** [json.MarshalIndent(request, "", "  ")]. *)
Variable MarshalIndent : PageCreateRequest → string.
(** [client.Database.Get] and [client.Page.Create] of a client made with
    a token: the answer and the new state of the service. *)
Variable Database_Get : string → string → World → World * (Database + error).
Variable Page_Create :
  string → PageCreateRequest → World → World * (Page + error).

Record state : Type := mkState { world : World; trace : list event }.

Definition Cmd (A : Type) : Type := state → state * outcome A.

Definition ret {A} (a : A) : Cmd A := λ st, (st, Returned a).

Definition bind {A B} (c : Cmd A) (k : A → Cmd B) : Cmd B :=
  λ st,
    match c st with
    | (st', Returned a) => k a st'
    | (st', Exited code) => (st', Exited code)
    | (st', OutOfFuel) => (st', OutOfFuel)
    end.

Notation "'do' x <- c ; k" := (bind c (λ x, k))
  (at level 10, x name, c at level 100, k at level 200).

Definition emit (e : event) : Cmd unit :=
  λ st, (mkState (world st) (trace st ++ [e]), Returned tt).

Definition Println (m : message) : Cmd unit := emit (Stdout m).

Definition os_Exit {A} (code : Z) : Cmd A := λ st, (st, Exited code).

(** [if b { c }] *)
Definition when (b : bool) (c : Cmd unit) : Cmd unit :=
  if b then c else ret tt.

(** [for _, x := range xs { body x }] *)
Fixpoint forEach {A} (xs : list A) (body : A → Cmd unit) : Cmd unit :=
  match xs with
  | [] => ret tt
  | x :: xs' => do _ <- body x; forEach xs' body
  end.

Definition client_Database_Get (token dbID : string)
    : Cmd (Database + error) :=
  λ st,
    let (w, answer) := Database_Get token dbID (world st) in
    (mkState w (trace st ++ [DatabaseGet token dbID]), Returned answer).

Definition client_Page_Create (token : string) (request : PageCreateRequest)
    : Cmd (Page + error) :=
  λ st,
    let (w, answer) := Page_Create token request (world st) in
    (mkState w (trace st ++ [PageCreate token request]), Returned answer).

(** [dbID = cleanDatabaseID(dbID)] *)
Definition call_cleanDatabaseID (fuel : nat) (input : string) : Cmd string :=
  λ st,
    match cleanDatabaseID fuel input with
    | Some dbID => (st, Returned dbID)
    | None => (st, OutOfFuel)
    end.

(** The loop [for i, raw := range rawData] that fills [pagesData]. *)
Fixpoint convertLoop (debugMode : bool) (database : Database) (i : nat)
    (rawData : list RawPageData) (pagesData : list PageData)
    : Cmd (list PageData) :=
  match rawData with
  | [] => ret pagesData
  | raw :: rest =>
      do _ <- when debugMode (Println (MsgProcessing (i + 1)));
      (* Convert raw data to Notion properties *)
      match convertToNotionProperties raw database with
      | (pageData, Some err) =>
          do _ <- Println (MsgConvertError (i + 1) err);
          convertLoop debugMode database (S i) rest pagesData (* continue *)
      | (pageData, None) =>
          convertLoop debugMode database (S i) rest (pagesData ++ [pageData])
      end
  end.

(** The debug-mode check of the property names of one page against a
    schema fetched again. *)
Definition warnUnknownProperties (token dbID : string) (pageData : PageData)
    : Cmd unit :=
  do answer <- client_Database_Get token dbID;
  match answer with
  | inl database =>
      forEach (map_to_list (PageData_Properties pageData)).*1 (λ propName,
        match Database_Properties database !! propName with
        | None =>
            Println (MsgUnknownProperty propName
                       (map_to_list (Database_Properties database)).*1)
        | Some _ => ret tt
        end)
  | inr _ => ret tt
  end.

(** The loop [for i, pageData := range pagesData] that submits the pages;
    it returns [successCount]. *)
Fixpoint insertLoop (debugMode : bool) (token dbID : string) (i : nat)
    (pagesData : list PageData) (successCount : nat) : Cmd nat :=
  match pagesData with
  | [] => ret successCount
  | pageData :: rest =>
      do _ <- Println (MsgInserting (i + 1));
      do _ <- when debugMode (warnUnknownProperties token dbID pageData);
      let request := mkPageCreateRequest dbID (PageData_Properties pageData) in
      do _ <- when debugMode (Println (MsgRequestJSON (MarshalIndent request)));
      do answer <- client_Page_Create token request;
      match answer with
      | inr err =>
          do _ <- Println (MsgFailed err);
          (* Check for common permission errors *)
          do _ <- when (Strings.Contains err "Could not find database")
                    (do _ <- Println MsgPermissionHelp;
                     (* Only show this detailed help for the first error *)
                     when (i =? 0)%nat (Println MsgMoreHelp));
          insertLoop debugMode token dbID (S i) rest successCount
      | inl response =>
          do _ <- Println MsgSuccess;
          (* Print URL of created page if available *)
          do _ <- when (negb (URL response =? ""))%string
                    (Println (MsgPageURL (URL response)));
          insertLoop debugMode token dbID (S i) rest (S successCount)
      end
  end.

(** [insertCmd.Run]. *)
Definition insertCmd_Run (fuel : nat) (flags : Flags) : Cmd unit :=
  let dbID := flag_db flags in
  let dataFile := flag_data flags in
  let apiKeyFlag := flag_api_key flags in
  let debugMode := flag_debug flags in
  (* --- Input Validation --- *)
  do _ <- when ((dbID =? "") || (dataFile =? ""))%string
            (do _ <- Println MsgFlagsRequired; os_Exit 1);
  (* Validate UUID format for database ID *)
  do dbID <- call_cleanDatabaseID fuel dbID;
  do _ <- when (negb (isValidUUID dbID))
            (do _ <- Println MsgInvalidDatabaseID; os_Exit 1);
  (* --- Get API Key --- *)
  let apiKey :=
    if (apiKeyFlag =? "")%string then Getenv "NOTION_API_KEY" else apiKeyFlag in
  do _ <- when (apiKey =? "")%string
            (do _ <- Println MsgNoAPIKey; os_Exit 1);
  (* --- Read Data File --- *)
  do _ <- Println (MsgReading dataFile);
  match ReadFile dataFile with
  | inr err => do _ <- Println (MsgReadError dataFile err); os_Exit 1
  | inl content =>
      do _ <- when debugMode (Println (MsgRawJSON content));
      (* --- Parse Raw JSON Data First --- *)
      do rawData <-
        match Unmarshal_slice content with
        | inl rawData => ret rawData
        | inr err =>
            (* Try as single object if array fails *)
            match Unmarshal_single content with
            | inr errSingle => do _ <- Println (MsgParseError err); os_Exit 1
            | inl singleRawData => ret [singleRawData]
            end
        end;
      do _ <- Println (MsgFound (length rawData) dbID);
      (* Fetch database schema *)
      do answer <- client_Database_Get apiKey dbID;
      match answer with
      | inr err => do _ <- Println (MsgDatabaseError err); os_Exit 1
      | inl database =>
          do pagesData <- convertLoop debugMode database 0 rawData [];
          (* --- Insert Data into Notion --- *)
          do successCount <- insertLoop debugMode apiKey dbID 0 pagesData 0;
          if (0 <? successCount)%nat then
            do _ <- Println (MsgFinished successCount (length pagesData));
            Println MsgTip
          else
            do _ <- Println (MsgFinished successCount (length pagesData));
            Println MsgNoneInserted
      end
  end.

(** The records [Run] reads from the content of the data file: the
    array, or else the single object as an array of one. *)
Definition parsedRecords (content : string) : option (list RawPageData) :=
  match Unmarshal_slice content with
  | inl rawData => Some rawData
  | inr _ =>
      match Unmarshal_single content with
      | inl singleRawData => Some [singleRawData]
      | inr _ => None
      end
  end.

(** From every state, [c] returns (it does not exit), its [PageCreate] calls
    are [requests], in this order, and its value satisfies [post]. *)
Definition submits {A} (c : Cmd A) (requests : list PageCreateRequest)
    (post : A → Prop) : Prop :=
  ∀ st, ∃ st' a,
    c st = (st', Returned a) ∧
    submissions (trace st') = submissions (trace st) ++ requests ∧
    post a.

End InsertCmd.

(** The records whose conversion returns no error, in the order of the
    input: what the first loop of [Run] leaves in [pagesData]. *)
Definition convertedPages (database : Database)
    (rawData : list RawPageData) : list PageData :=
  omap (λ raw, match convertToNotionProperties raw database with
               | (pageData, None) => Some pageData
               | (_, Some _) => None
               end) rawData.

(** The request [Run] builds for a page. *)
Definition requestFor (dbID : string) (pageData : PageData) : PageCreateRequest :=
  mkPageCreateRequest dbID (PageData_Properties pageData).

(** A process environment to run the command in: the data file holds three
    records, the schema fetch succeeds, and every [Page.Create] fails. The
    state of the service counts the calls it received. *)
Module Sample.

Definition flags : Flags :=
  mkFlags "1d4a5e7fe23180b98df2ddce1ea05ddf" "data.json" "" false.

Definition Getenv (name : string) : string :=
  if (name =? "NOTION_API_KEY")%string then "secret" else "".

Definition ReadFile (path : string) : string + error :=
  if (path =? "data.json")%string then inl "[...]"
  else inr "open: no such file or directory".

Definition Unmarshal_slice (content : string) : list RawPageData + error :=
  inl [sampleRecord; sampleMalformed; sampleMismatch].

Definition Unmarshal_single (content : string) : RawPageData + error :=
  inr "json: cannot unmarshal array into Go value of type main.RawPageData".

Definition MarshalIndent (request : PageCreateRequest) : string := "{...}".

Definition Database_Get (token dbID : string) (calls : nat)
    : nat * (Database + error) :=
  (S calls, inl sampleSchema).

Definition Page_Create (token : string) (request : PageCreateRequest)
    (calls : nat) : nat * (Page + error) :=
  (S calls, inr "Could not find database with ID").

Definition run : state * outcome unit :=
  insertCmd_Run Getenv ReadFile Unmarshal_slice Unmarshal_single MarshalIndent
    Database_Get Page_Create 1 flags (mkState 0 []).

End Sample.

(** ** The rest of the program: helpers for inspection, the inspect command *)

(** The value [cleanDatabaseID] formats from 32 hex digits:
    [fmt.Sprintf("%s-%s-%s-%s-%s", input[0:8], input[8:12], input[12:16],
    input[16:20], input[20:32])]. *)
Definition dashedUUID (input : string) : string :=
  slice input 0 8 +:+ "-" +:+ slice input 8 12 +:+ "-" +:+
  slice input 12 16 +:+ "-" +:+ slice input 16 20 +:+ "-" +:+
  slice input 20 32.

(** [getTitle]. *)
Definition getTitle (titleArray : list RichText) : string :=
  if (length titleArray =? 0)%nat then "Untitled"
  else
    foldl (λ title text,
             match RichText_Text text with
             | Some t => title +:+ Content t
             | None => title
             end)
          "" titleArray.

(** [getPropertyTypeString]; the default arm returns the tag itself. *)
Definition getPropertyTypeString (prop : PropertyConfigType) : string :=
  match prop with
  | PropertyConfigTypeTitle => "Title"
  | PropertyConfigTypeRichText => "Rich Text"
  | PropertyConfigTypeNumber => "Number"
  | PropertyConfigTypeSelect => "Select"
  | PropertyConfigTypeMultiSelect => "Multi Select"
  | PropertyConfigTypeDate => "Date"
  | PropertyConfigTypePeople => "People"
  | PropertyConfigTypeFiles => "Files"
  | PropertyConfigTypeCheckbox => "Checkbox"
  | PropertyConfigTypeURL => "URL"
  | PropertyConfigTypeEmail => "Email"
  | PropertyConfigTypePhoneNumber => "Phone Number"
  | PropertyConfigTypeFormula => "Formula"
  | PropertyConfigTypeRelation => "Relation"
  | PropertyConfigTypeRollup => "Rollup"
  | PropertyConfigTypeOther tag => tag
  end.

(** A string between two double-quote bytes (byte 34), as the raw string
    literals of [getSamplePropertyJSON] hold them. *)
Definition quoted (s : string) : string :=
  String "034" (s +:+ String "034" EmptyString).

(** [getSamplePropertyJSON]. *)
Definition getSamplePropertyJSON (prop : PropertyConfigType) : string :=
  match prop with
  | PropertyConfigTypeTitle =>
      "{" +:+ quoted "title" +:+ ": [{" +:+ quoted "text" +:+ ": {" +:+
      quoted "content" +:+ ": " +:+ quoted "Sample Title" +:+ "}}]}"
  | PropertyConfigTypeRichText =>
      "{" +:+ quoted "rich_text" +:+ ": [{" +:+ quoted "text" +:+ ": {" +:+
      quoted "content" +:+ ": " +:+ quoted "Sample text" +:+ "}}]}"
  | PropertyConfigTypeNumber =>
      "{" +:+ quoted "number" +:+ ": 42}"
  | PropertyConfigTypeSelect =>
      "{" +:+ quoted "select" +:+ ": {" +:+ quoted "name" +:+ ": " +:+
      quoted "Option Name" +:+ "}}"
  | PropertyConfigTypeMultiSelect =>
      "{" +:+ quoted "multi_select" +:+ ": [{" +:+ quoted "name" +:+ ": " +:+
      quoted "Option 1" +:+ "}, {" +:+ quoted "name" +:+ ": " +:+
      quoted "Option 2" +:+ "}]}"
  | PropertyConfigTypeDate =>
      "{" +:+ quoted "date" +:+ ": {" +:+ quoted "start" +:+ ": " +:+
      quoted "2023-01-01" +:+ ", " +:+ quoted "end" +:+ ": null}}"
  | PropertyConfigTypeCheckbox =>
      "{" +:+ quoted "checkbox" +:+ ": true}"
  | PropertyConfigTypeURL =>
      "{" +:+ quoted "url" +:+ ": " +:+ quoted "https://example.com" +:+ "}"
  | PropertyConfigTypeEmail =>
      "{" +:+ quoted "email" +:+ ": " +:+ quoted "example@example.com" +:+ "}"
  | PropertyConfigTypePhoneNumber =>
      "{" +:+ quoted "phone_number" +:+ ": " +:+ quoted "+1 234 567 8900"
  | _ => "{/* Complex type - see Notion API docs */}"
  end.

(** The number of bytes [c] in [s]. *)
Fixpoint countByte (c : ascii) (s : string) : nat :=
  match s with
  | EmptyString => 0
  | String d s' => (if Ascii.eqb d c then 1 else 0) + countByte c s'
  end.

(** What a trace shows of a run: the calls to the service, and the
    per-page reports "Success!" and "Failed: ...". *)
Definition isRemote (e : event) : bool :=
  match e with Stdout _ => false | _ => true end.

Definition isSuccess (e : event) : bool :=
  match e with Stdout MsgSuccess => true | _ => false end.

Definition isFailure (e : event) : bool :=
  match e with Stdout (MsgFailed _) => true | _ => false end.

Definition remoteCalls (trace : list event) : list event :=
  List.filter isRemote trace.

Definition successes (trace : list event) : nat :=
  length (List.filter isSuccess trace).

Definition failures (trace : list event) : nat :=
  length (List.filter isFailure trace).

(** The calls one turn of the second loop of [Run] makes for a page: in
    debug mode the schema is fetched again, then the page is created. *)
Definition callsFor (debugMode : bool) (token dbID : string)
    (pageData : PageData) : list event :=
  (if debugMode then [DatabaseGet token dbID] else []) ++
  [PageCreate token (requestFor dbID pageData)].

(** The three observations of a trace together, and how the observations
    of two consecutive pieces of a trace combine. *)
Definition observe (trace : list event) : list event * nat * nat :=
  (remoteCalls trace, successes trace, failures trace).

Definition combine (o1 o2 : list event * nat * nat) : list event * nat * nat :=
  (o1.1.1 ++ o2.1.1, o1.1.2 + o2.1.2, o1.2 + o2.2).

(** From every state, [c] returns, and the events it appends to the trace
    and its value satisfy [post]. *)
Definition emits {World A} (c : @Cmd World A)
    (post : list event → A → Prop) : Prop :=
  ∀ st, ∃ st' a evs,
    c st = (st', Returned a) ∧ trace st' = trace st ++ evs ∧ post evs a.

(** The same on observations: [c] returns, and what the events it appends
    show, with its value, satisfies [post]. *)
Definition observes {World A} (c : @Cmd World A)
    (post : list event * nat * nat → A → Prop) : Prop :=
  emits c (λ evs, post (observe evs)).

(** The part of [Run] that follows the schema fetch: the two loops and the
    summary. *)
Definition afterFetch {World}
    (MarshalIndent : PageCreateRequest → string)
    (Database_Get : string → string → World → World * (Database + error))
    (Page_Create : string → PageCreateRequest → World → World * (Page + error))
    (debugMode : bool) (apiKey dbID : string) (database : Database)
    (rawData : list RawPageData) : Cmd unit :=
  bind (convertLoop debugMode database 0 rawData []) (λ pagesData,
    bind (insertLoop MarshalIndent Database_Get Page_Create
            debugMode apiKey dbID 0 pagesData 0) (λ successCount,
      if (0 <? successCount)%nat then
        bind (Println (MsgFinished successCount (length pagesData)))
             (λ _, Println MsgTip)
      else
        bind (Println (MsgFinished successCount (length pagesData)))
             (λ _, Println MsgNoneInserted))).

(** More environments: an identifier that is no UUID, and a service that
    does not find the database. *)
Module SampleFailures.


Definition Database_Get (token dbID : string) (calls : nat)
    : nat * (Database + error) :=
  (S calls, inr "Could not find database with ID").

End SampleFailures.

(** ** The inspect command *)

(** What inspect writes to standard output, one constructor for each print
    statement of its [Run] or run of consecutive print statements, with
    the values the format strings are given. *)
Inductive inspectMessage : Type :=
  | InspectDbRequired
  | InspectInvalidDatabaseID
  | InspectNoAPIKey
  | InspectInspecting (dbID : string)
  | InspectDatabaseError (err : error)
  | InspectPermissionHelp
  | InspectTitle (title : string)
  | InspectProperty (name typeString : string)
  | InspectExampleHeader
  | InspectSample (name sampleJSON : string)
  | InspectExampleFooter.

Inductive inspectEvent : Type :=
  | InspectStdout (m : inspectMessage)
  | InspectDatabaseGet (token dbID : string).

Section InspectCmd.

Context {World : Type}.
Variable Getenv : string → string.
Variable Database_Get : string → string → World → World * (Database + error).

(** [inspectCmd.Run], as a function of the flags [--db] and [--api-key]
    and of the state of the service: the new state, what the process did,
    in order, and how it ended. The two loops over [database.Properties]
    range over [map_to_list]; Go may hand out the columns in another
    order, and in a different one in each loop. *)
Definition inspectCmd_Run (fuel : nat) (dbID apiKeyFlag : string) (w : World)
    : World * list inspectEvent * outcome unit :=
  (* --- Input Validation --- *)
  if (dbID =? "")%string then
    (w, [InspectStdout InspectDbRequired], Exited 1%Z)
  else
    (* Validate UUID format for database ID *)
    match cleanDatabaseID fuel dbID with
    | None => (w, [], OutOfFuel)
    | Some dbID =>
        if negb (isValidUUID dbID) then
          (w, [InspectStdout InspectInvalidDatabaseID], Exited 1%Z)
        else
          (* --- Get API Key --- *)
          let apiKey :=
            if (apiKeyFlag =? "")%string then Getenv "NOTION_API_KEY"
            else apiKeyFlag in
          if (apiKey =? "")%string then
            (w, [InspectStdout InspectNoAPIKey], Exited 1%Z)
          else
            (* Get database info *)
            let called :=
              [InspectStdout (InspectInspecting dbID);
               InspectDatabaseGet apiKey dbID] in
            match Database_Get apiKey dbID w with
            | (w1, inr err) =>
                (w1,
                 called ++ [InspectStdout (InspectDatabaseError err)] ++
                 (if Strings.Contains err "Could not find database"
                  then [InspectStdout InspectPermissionHelp] else []),
                 Exited 1%Z)
            | (w1, inl database) =>
                (* Display database info *)
                (w1,
                 called ++
                 [InspectStdout (InspectTitle (getTitle (Database_Title database)))] ++
                 ((λ entry, InspectStdout
                              (InspectProperty entry.1
                                 (getPropertyTypeString entry.2)))
                    <$> map_to_list (Database_Properties database)) ++
                 [InspectStdout InspectExampleHeader] ++
                 (* Generate a sample property JSON for each property type *)
                 ((λ entry, InspectStdout
                              (InspectSample entry.1
                                 (getSamplePropertyJSON entry.2)))
                    <$> map_to_list (Database_Properties database)) ++
                 [InspectStdout InspectExampleFooter],
                 Returned tt)
            end
    end.

End InspectCmd.

(** * Properties *)

(** ** Strings and patterns *)

Section StringFacts.

Import Strings.

Lemma Split_not_nil (s : string) (sep : ascii) : Split s sep ≠ [].
Proof.
  destruct s as [|c s]; simpl; [done|].
  destruct (Ascii.eqb c sep); [done|].
  by destruct (Split s sep).
Qed.

(** A string without the separator is its own single piece. *)
Lemma Split_no_sep (s : string) (sep : ascii) :
  inClass sep s = false → Split s sep = [s].
Proof.
  induction s as [|c s IH]; simpl; [done|].
  unfold inClass; simpl. fold (inClass sep s).
  rewrite Ascii.eqb_sym.
  destruct (Ascii.eqb c sep); simpl; [done|].
  intros H. by rewrite IH.
Qed.

(** The last piece holds no separator. *)
Lemma lastElem_Split_no_sep (s : string) (sep : ascii) :
  inClass sep (lastElem (Split s sep)) = false.
Proof.
  unfold lastElem.
  induction s as [|c s IH]; simpl; [done|].
  destruct (Ascii.eqb c sep) eqn:Hc.
  - pose proof (Split_not_nil s sep).
    destruct (Split s sep) as [|p ps] eqn:Hs; [done|]. exact IH.
  - pose proof (Split_not_nil s sep).
    destruct (Split s sep) as [|p ps] eqn:Hs; [done|].
    destruct ps as [|q qs].
    + simpl in *. unfold inClass; simpl. fold (inClass sep p).
      rewrite Ascii.eqb_sym, Hc. exact IH.
    + exact IH.
Qed.

Lemma lastElem_Split_idem (s : string) (sep : ascii) :
  lastElem (Split (lastElem (Split s sep)) sep) = lastElem (Split s sep).
Proof. by rewrite Split_no_sep by apply lastElem_Split_no_sep. Qed.

(** The first byte of a substring that occurs in [s] occurs in [s]. *)
Lemma HasPrefix_first (s t : string) (c : ascii) :
  HasPrefix s (String c t) = true → inClass c s = true.
Proof.
  destruct s as [|d s]; simpl; [done|].
  intros [Hd _]%andb_true_iff. apply Ascii.eqb_eq in Hd as ->.
  unfold inClass; simpl. by rewrite Ascii.eqb_refl.
Qed.

Lemma Contains_first (s t : string) (c : ascii) :
  Contains s (String c t) = true → inClass c s = true.
Proof.
  induction s as [|d s IH].
  - by simpl.
  - cbn [Contains]. intros [H|H]%orb_true_iff.
    + by apply HasPrefix_first in H.
    + unfold inClass; simpl. fold (inClass c s). rewrite (IH H).
      apply orb_true_r.
Qed.

Lemma allIn_inClass (class s : string) (c : ascii) :
  allIn class s = true → inClass c s = true → inClass c class = true.
Proof.
  induction s as [|d s IH]; simpl; [done|].
  intros [Hd Hs]%andb_true_iff. unfold inClass at 1; simpl. fold (inClass c s).
  intros [Hc|Hc]%orb_true_iff; [|by apply IH].
  by apply Ascii.eqb_eq in Hc as ->.
Qed.

(** A string made of bytes of the class cannot contain a substring that
    starts with a byte outside it. *)
Lemma allIn_not_Contains (class s t : string) (c : ascii) :
  allIn class s = true → inClass c class = false →
  Contains s (String c t) = false.
Proof.
  intros Hs Hc. destruct (Contains s (String c t)) eqn:H; [|done].
  apply Contains_first in H. by rewrite (allIn_inClass _ _ _ Hs H) in Hc.
Qed.

Lemma matchRep_app (class pre rest : string) (n : nat) :
  String.length pre = n → allIn class pre = true →
  matchRep class n (pre +:+ rest) = Some rest.
Proof.
  revert n. induction pre as [|c pre IH]; intros n <-; simpl; [done|].
  intros [-> Hpre]%andb_true_iff. by apply IH.
Qed.

Lemma matchRep_inv (class s rest : string) (n : nat) :
  matchRep class n s = Some rest →
  ∃ pre, s = pre +:+ rest ∧ String.length pre = n ∧ allIn class pre = true.
Proof.
  revert s. induction n as [|n IH]; intros s; simpl.
  - intros [= ->]. by exists EmptyString.
  - destruct s as [|c s]; [done|].
    destruct (inClass c class) eqn:Hc; [|done].
    intros (pre & -> & <- & Hpre)%IH.
    exists (String c pre). simpl. by rewrite Hc, Hpre.
Qed.

Lemma append_cons (c : ascii) (s t : string) :
  String c s +:+ t = String c (s +:+ t).
Proof. reflexivity. Qed.

Lemma append_empty_r (s : string) : s +:+ EmptyString = s.
Proof. induction s as [|c s IH]; [done|]. by rewrite append_cons, IH. Qed.

(** The pattern [^[a-fA-F0-9]{32}$] matches the strings of 32 hex digits. *)
Lemma MatchString_hex32 (s : string) :
  MatchString hex32Regexp s = true ↔
  String.length s = 32 ∧ allIn hexClass s = true.
Proof.
  unfold hex32Regexp. cbn [MatchString]. split.
  - destruct (matchRep hexClass 32 s) as [rest|] eqn:H; [|done].
    destruct rest; [|done]. intros _.
    apply matchRep_inv in H as (pre & -> & Hn & Hpre).
    by rewrite append_empty_r.
  - intros [Hn Hs].
    rewrite <- (append_empty_r s). by rewrite (matchRep_app _ _ _ _ Hn Hs).
Qed.

Lemma substring_length (s : string) (lo n : nat) :
  lo + n ≤ String.length s → String.length (String.substring lo n s) = n.
Proof.
  revert lo n. induction s as [|c s IH]; intros [|lo] [|n]; simpl; try lia.
  - intros H. rewrite (IH 0 n); [done|simpl; lia].
  - intros H. apply (IH lo 0). lia.
  - intros H. apply (IH lo (S n)). lia.
Qed.

Lemma substring_allIn (class s : string) (lo n : nat) :
  allIn class s = true → allIn class (String.substring lo n s) = true.
Proof.
  revert lo n. induction s as [|c s IH]; intros [|lo] [|n]; simpl; try done.
  - intros [-> Hs]%andb_true_iff. by apply IH.
  - intros [_ Hs]%andb_true_iff. by apply IH.
  - intros [_ Hs]%andb_true_iff. by apply IH.
Qed.

Lemma substring_append (s : string) (lo n m : nat) :
  String.substring lo n s +:+ String.substring (lo + n) m s
  = String.substring lo (n + m) s.
Proof.
  revert lo n m. induction s as [|c s IH]; intros lo n m.
  - destruct lo, n, m; reflexivity.
  - destruct lo as [|lo].
    + destruct n as [|n]; simpl.
      * destruct m; reflexivity.
      * by rewrite <- (IH 0 n m).
    + simpl. apply IH.
Qed.

Lemma substring_all (s : string) : String.substring 0 (String.length s) s = s.
Proof. induction s as [|c s IH]; simpl; [done|]. by rewrite IH. Qed.

End StringFacts.

(** ** cleanDatabaseID and isValidUUID *)

Example cleanDatabaseID_hex32 :
  cleanDatabaseID 1 "1d4a5e7fe23180b98df2ddce1ea05ddf"
  = Some "1d4a5e7f-e231-80b9-8df2-ddce1ea05ddf".
Proof. reflexivity. Qed.

Example cleanDatabaseID_help_url :
  cleanDatabaseID 2 "https://www.notion.so/1d4a5e7fe23180b98df2ddce1ea05ddf"
  = Some "1d4a5e7f-e231-80b9-8df2-ddce1ea05ddf".
Proof. reflexivity. Qed.

Example cleanDatabaseID_help_url_view :
  cleanDatabaseID 2 "https://www.notion.so/1d4a5e7fe23180b98df2ddce1ea05ddf?v=42"
  = Some "1d4a5e7fe23180b98df2ddce1ea05ddf?v=42".
Proof. reflexivity. Qed.

Example isValidUUID_example :
  isValidUUID "f1a2b3c4-d5e6-7f8a-9b0c-1d2e3f4a5b6c" = true.
Proof. reflexivity. Qed.

(** The example of the command's help text, with its view parameter: the
    segment after the last slash is returned as it is. *)
Example cleanDatabaseID_help_url_invalid :
  ∀ dbID,
    cleanDatabaseID 2 "https://www.notion.so/1d4a5e7fe23180b98df2ddce1ea05ddf?v=42"
    = Some dbID → isValidUUID dbID = false.
Proof. intros dbID [= <-]. reflexivity. Qed.

(** One call of [cleanDatabaseID], unfolded. *)
Lemma cleanDatabaseID_S (fuel : nat) (input : string) :
  cleanDatabaseID (S fuel) input =
  if Strings.Contains input "-" then Some input
  else if MatchString hex32Regexp input then
    Some (slice input 0 8 +:+ "-" +:+ slice input 8 12 +:+ "-" +:+
          slice input 12 16 +:+ "-" +:+ slice input 16 20 +:+ "-" +:+
          slice input 20 32)
  else if Strings.Contains input "notion.so" then
    if (32 <=? String.length (lastElem (Strings.Split input "/")))%nat
    then cleanDatabaseID fuel (lastElem (Strings.Split input "/"))
    else Some input
  else Some input.
Proof. reflexivity. Qed.

(** More calls never change an answer. *)
Lemma cleanDatabaseID_mono (fuel fuel' : nat) (input output : string) :
  fuel ≤ fuel' → cleanDatabaseID fuel input = Some output →
  cleanDatabaseID fuel' input = Some output.
Proof.
  revert fuel' input. induction fuel as [|fuel IH]; intros fuel' input Hle.
  - done.
  - destruct fuel' as [|fuel']; [lia|].
    rewrite !cleanDatabaseID_S.
    repeat case_match; try done.
    apply IH. lia.
Qed.

Lemma hex32_no_dash (input : string) :
  String.length input = 32 → allIn hexClass input = true →
  Strings.Contains input "-" = false.
Proof. intros _ H. by apply allIn_not_Contains with hexClass. Qed.

Lemma hex32_not_notion_url (input : string) :
  Strings.Contains input "notion.so" = true →
  MatchString hex32Regexp input = false.
Proof.
  intros H. destruct (MatchString hex32Regexp input) eqn:Hm; [|done].
  apply MatchString_hex32 in Hm as [_ Hm].
  by rewrite (allIn_not_Contains hexClass input "otion.so" "n" Hm) in H.
Qed.

Lemma MatchString_Rep (class pre rest : string) (n : nat) (r : Regexp) :
  String.length pre = n → allIn class pre = true →
  MatchString (Rep class n :: r) (pre +:+ rest) = MatchString r rest.
Proof. intros Hn Hpre. cbn [MatchString]. by rewrite matchRep_app. Qed.

Lemma MatchString_Lit (c : ascii) (s : string) (r : Regexp) :
  MatchString (Lit c :: r) (String c s) = MatchString r s.
Proof. cbn [MatchString]. by rewrite Ascii.eqb_refl. Qed.

(** The dashed form of 32 hex digits is a UUID for [isValidUUID]. *)
Lemma isValidUUID_dashed (a b c d e : string) :
  String.length a = 8 → allIn hexClass a = true →
  String.length b = 4 → allIn hexClass b = true →
  String.length c = 4 → allIn hexClass c = true →
  String.length d = 4 → allIn hexClass d = true →
  String.length e = 12 → allIn hexClass e = true →
  isValidUUID (a +:+ "-" +:+ b +:+ "-" +:+ c +:+ "-" +:+ d +:+ "-" +:+ e) = true.
Proof.
  intros La Ha Lb Hb Lc Hc Ld Hd Le He.
  rewrite <- (append_empty_r e).
  change (MatchString uuidRegexp
            (a +:+ String "-" (b +:+ String "-" (c +:+ String "-"
              (d +:+ String "-" (e +:+ ""))))) = true).
  unfold uuidRegexp.
  rewrite (MatchString_Rep _ _ _ _ _ La Ha), MatchString_Lit.
  rewrite (MatchString_Rep _ _ _ _ _ Lb Hb), MatchString_Lit.
  rewrite (MatchString_Rep _ _ _ _ _ Lc Hc), MatchString_Lit.
  rewrite (MatchString_Rep _ _ _ _ _ Ld Hd), MatchString_Lit.
  by rewrite (MatchString_Rep _ _ _ _ _ Le He).
Qed.

(** C7. For every string of 32 hex digits (which has no dash),
    [cleanDatabaseID] returns, in its first call, the input with a dash
    inserted before its bytes 8, 12, 16 and 20: the five groups of 8, 4, 4,
    4 and 12 bytes that make up the input, joined by dashes; and
    [isValidUUID] accepts that result. *)
Theorem cleanDatabaseID_hex32_is_uuid (input : string) (fuel : nat) :
  String.length input = 32 → allIn hexClass input = true →
  let output :=
    slice input 0 8 +:+ "-" +:+ slice input 8 12 +:+ "-" +:+
    slice input 12 16 +:+ "-" +:+ slice input 16 20 +:+ "-" +:+
    slice input 20 32 in
  Strings.Contains input "-" = false ∧
  input = slice input 0 8 +:+ slice input 8 12 +:+ slice input 12 16 +:+
          slice input 16 20 +:+ slice input 20 32 ∧
  String.length (slice input 0 8) = 8 ∧ String.length (slice input 8 12) = 4 ∧
  String.length (slice input 12 16) = 4 ∧ String.length (slice input 16 20) = 4 ∧
  String.length (slice input 20 32) = 12 ∧
  cleanDatabaseID (S fuel) input = Some output ∧
  isValidUUID output = true.
Proof.
  intros Hlen Hhex output.
  assert (Hdash : Strings.Contains input "-" = false) by by apply hex32_no_dash.
  assert (Hm : MatchString hex32Regexp input = true) by by apply MatchString_hex32.
  assert (Hl : ∀ lo hi, lo ≤ hi → hi ≤ 32 →
            String.length (slice input lo hi) = hi - lo).
  { intros lo hi ??. unfold slice. apply substring_length. lia. }
  assert (Hh : ∀ lo hi, allIn hexClass (slice input lo hi) = true).
  { intros lo hi. unfold slice. by apply substring_allIn. }
  split_and!; try (rewrite Hl; lia); [done| | |].
  - unfold slice. cbn [Nat.sub].
    pose proof (substring_append input 16 4 12) as H1.
    pose proof (substring_append input 12 4 16) as H2.
    pose proof (substring_append input 8 4 20) as H3.
    pose proof (substring_append input 0 8 24) as H4.
    cbn [Nat.add] in H1, H2, H3, H4.
    by rewrite H1, H2, H3, H4, <- Hlen, substring_all.
  - by rewrite cleanDatabaseID_S, Hdash, Hm.
  - apply isValidUUID_dashed; try apply Hh; rewrite Hl; lia.
Qed.

Lemma cleanDatabaseID_hex32_is_uuid_witness :
  String.length "1d4a5e7fe23180b98df2ddce1ea05ddf" = 32 ∧
  allIn hexClass "1d4a5e7fe23180b98df2ddce1ea05ddf" = true ∧
  cleanDatabaseID 1 "1d4a5e7fe23180b98df2ddce1ea05ddf"
  = Some "1d4a5e7f-e231-80b9-8df2-ddce1ea05ddf" ∧
  isValidUUID "1d4a5e7f-e231-80b9-8df2-ddce1ea05ddf" = true.
Proof.
  pose proof (cleanDatabaseID_hex32_is_uuid
                "1d4a5e7fe23180b98df2ddce1ea05ddf" 0 eq_refl eq_refl) as H.
  split; [reflexivity|]. split; [reflexivity|]. split; apply H.
Defined.

(** C8, as stated, fails on a Notion URL that holds a dash: the guard on
    dashes returns the whole URL, while its last segment, 32 hex digits,
    is normalised to a UUID. *)
Lemma cleanDatabaseID_url_with_dash :
  let url := "https://www.notion.so/my-team/1d4a5e7fe23180b98df2ddce1ea05ddf" in
  let segment := lastElem (Strings.Split url "/") in
  Strings.Contains url "notion.so" = true ∧
  segment = "1d4a5e7fe23180b98df2ddce1ea05ddf" ∧
  32 ≤ String.length segment ∧
  (∀ fuel, cleanDatabaseID (S fuel) url = Some url) ∧
  (∀ fuel, cleanDatabaseID (S fuel) segment
           = Some "1d4a5e7f-e231-80b9-8df2-ddce1ea05ddf") ∧
  ¬ (∀ output, cleanDatabaseID_returns url output ↔
               cleanDatabaseID_returns segment output).
Proof.
  intros url segment.
  assert (Hurl : ∀ fuel, cleanDatabaseID (S fuel) url = Some url) by done.
  assert (Hseg : ∀ fuel, cleanDatabaseID (S fuel) segment
                 = Some "1d4a5e7f-e231-80b9-8df2-ddce1ea05ddf") by done.
  split_and!; try done.
  intros H. destruct (proj1 (H url)) as [[|fuel] Hf].
  - by exists 1.
  - done.
  - by rewrite Hseg in Hf.
Qed.

(** C8 (amended). For every string that contains "notion.so" and no dash
    and whose segment after the last slash has at least 32 bytes, the call
    on the whole string is the call on that segment: it returns what the
    segment's call returns, and returns nothing when that call does not
    return. *)
Theorem cleanDatabaseID_url_segment (input : string) :
  Strings.Contains input "notion.so" = true →
  Strings.Contains input "-" = false →
  32 ≤ String.length (lastElem (Strings.Split input "/")) →
  (∀ fuel, cleanDatabaseID (S fuel) input
           = cleanDatabaseID fuel (lastElem (Strings.Split input "/"))) ∧
  (∀ output, cleanDatabaseID_returns input output ↔
             cleanDatabaseID_returns (lastElem (Strings.Split input "/")) output).
Proof.
  intros Hurl Hdash Hlen.
  assert (Hstep : ∀ fuel, cleanDatabaseID (S fuel) input
            = cleanDatabaseID fuel (lastElem (Strings.Split input "/"))).
  { intros fuel.
    rewrite cleanDatabaseID_S, Hdash, (hex32_not_notion_url _ Hurl), Hurl.
    by rewrite (proj2 (Nat.leb_le _ _) Hlen). }
  split; [done|]. intros output. split.
  - intros [[|fuel] H]; [done|]. exists fuel. by rewrite <- Hstep.
  - intros [fuel H]. exists (S fuel). by rewrite Hstep.
Qed.

Lemma cleanDatabaseID_url_segment_witness :
  let url := "https://www.notion.so/1d4a5e7fe23180b98df2ddce1ea05ddf" in
  Strings.Contains url "notion.so" = true ∧
  Strings.Contains url "-" = false ∧
  lastElem (Strings.Split url "/") = "1d4a5e7fe23180b98df2ddce1ea05ddf" ∧
  cleanDatabaseID 2 url = cleanDatabaseID 1 "1d4a5e7fe23180b98df2ddce1ea05ddf".
Proof.
  intros url.
  split; [reflexivity|]. split; [reflexivity|]. split; [reflexivity|].
  refine (proj1 (cleanDatabaseID_url_segment url eq_refl eq_refl _) 1).
  vm_compute. lia.
Defined.

(** A string with no dash and no slash that contains "notion.so" and has
    at least 32 bytes is its own last segment: every call ends in a call
    on the same string. *)
Lemma cleanDatabaseID_no_return (input : string) :
  Strings.Contains input "-" = false →
  Strings.Contains input "notion.so" = true →
  inClass "/" input = false →
  32 ≤ String.length input →
  ∀ fuel, cleanDatabaseID fuel input = None.
Proof.
  intros Hdash Hurl Hslash Hlen fuel.
  induction fuel as [|fuel IH]; [done|].
  rewrite cleanDatabaseID_S, Hdash, (hex32_not_notion_url _ Hurl), Hurl.
  rewrite (Split_no_sep _ _ Hslash).
  change (lastElem [input]) with input.
  by rewrite (proj2 (Nat.leb_le _ _) Hlen).
Qed.

(** Two nested calls decide the whole run: the second call works on a
    segment without a slash, and a third call would be on that same
    segment. *)
Lemma cleanDatabaseID_two_calls (input : string) :
  cleanDatabaseID 2 input = None → ∀ fuel, cleanDatabaseID fuel input = None.
Proof.
  intros H [|fuel]; [done|]. revert H.
  rewrite !cleanDatabaseID_S. repeat case_match; try done.
  intros _. apply cleanDatabaseID_no_return; try done.
  - apply lastElem_Split_no_sep.
  - by apply Nat.leb_le.
Qed.

(** C9. The claim fails on the code: on a Notion address written without
    a slash (no dash, at least 32 bytes) [cleanDatabaseID] calls itself on
    its own input, and no number of nested calls reaches a [return]. *)
Theorem cleanDatabaseID_diverges :
  ∀ fuel,
    cleanDatabaseID fuel "www.notion.so?p=1d4a5e7fe23180b98df2ddce1ea05ddf" = None.
Proof.
  apply cleanDatabaseID_no_return; try reflexivity.
  vm_compute. lia.
Qed.

(** The same with a full URL whose last segment names the site again. *)
Example cleanDatabaseID_diverges_url :
  ∀ fuel,
    cleanDatabaseID fuel
      "https://www.notion.so/1d4a5e7fe23180b98df2ddce1ea05ddf?ref=notion.so"
    = None.
Proof. by apply cleanDatabaseID_two_calls. Qed.

(** ** convertToNotionProperties *)

Section Coercion.

Context (schema : Database).

Lemma convertProperty_fieldProperty (result : Properties)
    (propName : string) (propValue : value) :
  convertProperty schema result propName propValue
  = storeProperty propName (fieldProperty schema propName propValue) result.
Proof.
  unfold convertProperty, fieldProperty.
  destruct (Database_Properties schema !! propName) as [[]|]; done.
Qed.

Lemma lookup_convertProperty (result : Properties)
    (propName k : string) (propValue : value) :
  convertProperty schema result propName propValue !! k
  = if decide (propName = k)
    then match fieldProperty schema propName propValue with
         | Some p => Some p
         | None => result !! k
         end
    else result !! k.
Proof.
  rewrite convertProperty_fieldProperty. unfold storeProperty.
  destruct (fieldProperty schema propName propValue) as [p|];
    case_decide; subst; try done.
  - by rewrite lookup_insert_eq.
  - by rewrite lookup_insert_ne.
Qed.

(** The loop, entry by entry: a name met in the entries gets the property
    of its field, or keeps what the map held when the field gives none. *)
Lemma lookup_convertEntries (entries : list (string * value))
    (result : Properties) (k : string) :
  NoDup entries.*1 →
  convertEntries schema entries result !! k
  = match (list_to_map entries : gmap string value) !! k with
    | Some v =>
        match fieldProperty schema k v with
        | Some p => Some p
        | None => result !! k
        end
    | None => result !! k
    end.
Proof.
  unfold convertEntries. revert result.
  induction entries as [|[name v] entries IH]; intros result Hnd; [done|].
  apply NoDup_cons in Hnd as [Hname Hnd]. cbn [foldl fst snd].
  rewrite (IH _ Hnd), lookup_convertProperty. cbn [list_to_map foldr].
  destruct (decide (name = k)) as [->|Hne].
  - rewrite lookup_insert_eq.
    by rewrite (not_elem_of_list_to_map_1 (M:=gmap string) _ _ Hname).
  - rewrite lookup_insert_ne by done.
    repeat case_match; done.
Qed.

(** The order in which the runtime hands out the entries of [props] has no
    effect on the result. *)
Lemma convertEntries_Permutation (entries entries' : list (string * value))
    (result : Properties) :
  NoDup entries.*1 → entries ≡ₚ entries' →
  convertEntries schema entries result = convertEntries schema entries' result.
Proof.
  intros Hnd Hp. apply map_eq. intros k.
  assert (Hnd' : NoDup entries'.*1) by by rewrite <- Hp.
  rewrite !lookup_convertEntries by done.
  by rewrite (list_to_map_proper (M:=gmap string) _ _ Hnd Hp).
Qed.

(** The coerced record, name by name. *)
Lemma lookup_convertToNotionProperties (raw props : gmap string value)
    (k : string) :
  raw !! "properties" = Some (Map props) →
  PageData_Properties (convertToNotionProperties raw schema).1 !! k
  = props !! k ≫= fieldProperty schema k.
Proof.
  intros Hraw. unfold convertToNotionProperties. rewrite Hraw. cbn [fst].
  cbn [PageData_Properties].
  rewrite lookup_convertEntries by apply NoDup_fst_map_to_list.
  rewrite list_to_map_to_list, lookup_empty.
  destruct (props !! k) as [v|]; [|done]. cbn.
  by destruct (fieldProperty schema k v).
Qed.

Lemma convertToNotionProperties_no_error (raw props : gmap string value) :
  raw !! "properties" = Some (Map props) →
  (convertToNotionProperties raw schema).2 = None.
Proof. intros Hraw. unfold convertToNotionProperties. by rewrite Hraw. Qed.

(** A name the map holds has exactly one entry in its listing. *)
Lemma entriesNamed_lookup (properties : Properties) (k : string) (p : Property) :
  properties !! k = Some p → entriesNamed k properties = [(k, p)].
Proof.
  intros Hk. unfold entriesNamed.
  apply elem_of_map_to_list in Hk.
  pose proof (NoDup_fst_map_to_list properties) as Hnd.
  induction (map_to_list properties) as [|[name q] entries IH]; cbn.
  - by apply elem_of_nil in Hk.
  - apply NoDup_cons in Hnd as [Hname Hnd].
    apply elem_of_cons in Hk as [[= <- <-]|Hk].
    + rewrite bool_decide_eq_true_2 by done. f_equal.
      clear IH. induction entries as [|[name' q'] entries IH]; [done|].
      cbn. apply not_elem_of_cons in Hname as [Hne Hname].
      apply NoDup_cons in Hnd as [_ Hnd].
      rewrite bool_decide_eq_false_2 by done. by apply IH.
    + rewrite bool_decide_eq_false_2; [by apply IH|].
      intros ->. apply Hname. by apply (list_elem_of_fmap_2 fst) in Hk.
Qed.

Lemma entriesNamed_None (properties : Properties) (k : string) :
  properties !! k = None → entriesNamed k properties = [].
Proof.
  intros Hk. unfold entriesNamed.
  assert (H : ∀ entry, entry ∈ map_to_list properties → entry.1 ≠ k).
  { intros [name p] He%elem_of_map_to_list. cbn. intros ->. congruence. }
  induction (map_to_list properties) as [|entry entries IH]; [done|]. cbn.
  rewrite bool_decide_eq_false_2 by (apply H; left).
  apply IH. intros e He. apply H. by right.
Qed.

End Coercion.

(** C1, as stated, fails on the code: [convertToNotionProperties] returns a
    [PageData] and an [error] and nothing else. A record with no field and
    a record with one mismatched field give the same return value, while
    the contract's count is 0 for the first and 1 for the second; so no
    dropped-field count is returned or can be read off what is returned. *)
Lemma convert_returns_no_dropped_count :
  let schema := mkDatabase [] {[ "Name" := PropertyConfigTypeTitle ]} in
  let mismatch : RawPageData :=
    {[ "properties" := Map {[ "Name" := Float64 5 ]} ]} in
  convertToNotionProperties sampleEmpty schema
  = convertToNotionProperties mismatch schema ∧
  spec_droppedFieldCount sampleEmpty schema = 0 ∧
  spec_droppedFieldCount mismatch schema = 1 ∧
  ¬ ∃ droppedFieldCount : PageData * option error → nat,
      ∀ raw schema,
        droppedFieldCount (convertToNotionProperties raw schema)
        = spec_droppedFieldCount raw schema.
Proof.
  intros schema mismatch.
  assert (Heq : convertToNotionProperties sampleEmpty schema
                = convertToNotionProperties mismatch schema)
    by (vm_compute; reflexivity).
  assert (H0 : spec_droppedFieldCount sampleEmpty schema = 0)
    by (vm_compute; reflexivity).
  assert (H1 : spec_droppedFieldCount mismatch schema = 1)
    by (vm_compute; reflexivity).
  split; [exact Heq|]. split; [exact H0|]. split; [exact H1|].
  intros [count Hcount].
  pose proof (Hcount sampleEmpty schema) as Ha.
  pose proof (Hcount mismatch schema) as Hb.
  rewrite Heq, Hb, H1, H0 in Ha. discriminate Ha.
Qed.

(** C1 (amended). For every field of the nested field-map whose column is
    Title or RichText and whose value is not a string, or whose column is
    Number and whose value is not a number, the coerced record has no entry
    under the field's name and the function returns no error. *)
Theorem convert_mismatch_dropped (raw props : gmap string value)
    (schema : Database) (k : string) (v : value) (t : PropertyConfigType) :
  raw !! "properties" = Some (Map props) →
  props !! k = Some v →
  Database_Properties schema !! k = Some t →
  (t = PropertyConfigTypeTitle ∨ t = PropertyConfigTypeRichText) ∧
    (∀ s, v ≠ Str s) ∨
  t = PropertyConfigTypeNumber ∧ (∀ f, v ≠ Float64 f) →
  let result := convertToNotionProperties raw schema in
  PageData_Properties result.1 !! k = None ∧
  entriesNamed k (PageData_Properties result.1) = [] ∧
  result.2 = None.
Proof.
  intros Hraw Hk Ht Hmis result.
  assert (Hnone : PageData_Properties result.1 !! k = None).
  { unfold result. rewrite (lookup_convertToNotionProperties _ _ _ _ Hraw), Hk.
    cbn. unfold fieldProperty. rewrite Ht.
    destruct Hmis as [[[-> | ->] Hv] | [-> Hv]]; destruct v; try done;
      by edestruct Hv. }
  split_and!; [done| by apply entriesNamed_None |].
  by apply convertToNotionProperties_no_error with props.
Qed.

Lemma convert_mismatch_dropped_witness :
  let result := convertToNotionProperties sampleMismatch sampleSchema in
  sampleMismatch !! "properties"
  = Some (Map {[ "Name" := Float64 5; "Age" := Str "old"; "Done" := Bool true;
                 "Unknown" := Str "x" ]}) ∧
  (PageData_Properties result.1 !! "Name" = None ∧
   entriesNamed "Name" (PageData_Properties result.1) = [] ∧
   result.2 = None) ∧
  (PageData_Properties result.1 !! "Age" = None ∧
   entriesNamed "Age" (PageData_Properties result.1) = [] ∧
   result.2 = None).
Proof.
  intros result. split; [reflexivity|]. split.
  - apply (convert_mismatch_dropped sampleMismatch _ sampleSchema "Name"
             (Float64 5) PropertyConfigTypeTitle eq_refl eq_refl eq_refl).
    left. split; [by left | intros s; discriminate].
  - apply (convert_mismatch_dropped sampleMismatch _ sampleSchema "Age"
             (Str "old") PropertyConfigTypeNumber eq_refl eq_refl eq_refl).
    right. split; [reflexivity | intros f; discriminate].
Defined.

(** C2. For every field of the nested field-map whose column is Title,
    RichText or Number and whose value has the matching JSON type, the
    coerced record holds exactly one entry under the field's name: a title
    or rich-text property with one run whose content is the string, or a
    number property with the number. No error is returned. *)
Theorem convert_matching_one_entry (raw props : gmap string value)
    (schema : Database) (k : string) (v : value) (t : PropertyConfigType) :
  raw !! "properties" = Some (Map props) →
  props !! k = Some v →
  Database_Properties schema !! k = Some t →
  let result := convertToNotionProperties raw schema in
  let holdsOnly p :=
    PageData_Properties result.1 !! k = Some p ∧
    entriesNamed k (PageData_Properties result.1) = [(k, p)] in
  result.2 = None ∧
  (∀ s, t = PropertyConfigTypeTitle → v = Str s →
        holdsOnly (TitleProperty [mkRichText (Some (mkText s))])) ∧
  (∀ s, t = PropertyConfigTypeRichText → v = Str s →
        holdsOnly (RichTextProperty [mkRichText (Some (mkText s))])) ∧
  (∀ f, t = PropertyConfigTypeNumber → v = Float64 f →
        holdsOnly (NumberProperty f)).
Proof.
  intros Hraw Hk Ht result holdsOnly.
  assert (Hfield : ∀ p, fieldProperty schema k v = Some p → holdsOnly p).
  { intros p Hp.
    assert (PageData_Properties result.1 !! k = Some p) as Hres.
    { unfold result.
      by rewrite (lookup_convertToNotionProperties _ _ _ _ Hraw), Hk. }
    split; [done | by apply entriesNamed_lookup]. }
  split_and!.
  - by apply convertToNotionProperties_no_error with props.
  - intros s -> ->. apply Hfield. unfold fieldProperty. by rewrite Ht.
  - intros s -> ->. apply Hfield. unfold fieldProperty. by rewrite Ht.
  - intros f -> ->. apply Hfield. unfold fieldProperty. by rewrite Ht.
Qed.

Lemma convert_matching_one_entry_witness :
  let result := convertToNotionProperties sampleRecord sampleSchema in
  entriesNamed "Name" (PageData_Properties result.1)
  = [("Name", TitleProperty [mkRichText (Some (mkText "A"))])] ∧
  entriesNamed "Notes" (PageData_Properties result.1)
  = [("Notes", RichTextProperty [mkRichText (Some (mkText "n"))])] ∧
  entriesNamed "Age" (PageData_Properties result.1)
  = [("Age", NumberProperty 25)] ∧
  result.2 = None.
Proof.
  intros result. split_and!.
  - apply (convert_matching_one_entry sampleRecord _ sampleSchema "Name"
             (Str "A") PropertyConfigTypeTitle eq_refl eq_refl eq_refl);
      reflexivity.
  - apply (convert_matching_one_entry sampleRecord _ sampleSchema "Notes"
             (Str "n") PropertyConfigTypeRichText eq_refl eq_refl eq_refl);
      reflexivity.
  - apply (convert_matching_one_entry sampleRecord _ sampleSchema "Age"
             (Float64 25) PropertyConfigTypeNumber eq_refl eq_refl eq_refl);
      reflexivity.
  - apply (convert_matching_one_entry sampleRecord _ sampleSchema "Name"
             (Str "A") PropertyConfigTypeTitle eq_refl eq_refl eq_refl).
Defined.

(** C3. For every field of the nested field-map whose column type is none
    of Title, RichText and Number, whatever the value, the coerced record
    has no entry under the field's name. *)
Theorem convert_unsupported_dropped (raw props : gmap string value)
    (schema : Database) (k : string) (v : value) (t : PropertyConfigType) :
  raw !! "properties" = Some (Map props) →
  props !! k = Some v →
  Database_Properties schema !! k = Some t →
  t ≠ PropertyConfigTypeTitle →
  t ≠ PropertyConfigTypeRichText →
  t ≠ PropertyConfigTypeNumber →
  let result := convertToNotionProperties raw schema in
  PageData_Properties result.1 !! k = None ∧
  entriesNamed k (PageData_Properties result.1) = [].
Proof.
  intros Hraw Hk Ht Htitle Hrich Hnum result.
  assert (Hnone : PageData_Properties result.1 !! k = None).
  { unfold result. rewrite (lookup_convertToNotionProperties _ _ _ _ Hraw), Hk.
    cbn. unfold fieldProperty. rewrite Ht. by destruct t. }
  split; [done | by apply entriesNamed_None].
Qed.

Lemma convert_unsupported_dropped_witness :
  let result := convertToNotionProperties sampleMismatch sampleSchema in
  Database_Properties sampleSchema !! "Done" = Some PropertyConfigTypeCheckbox ∧
  PageData_Properties result.1 !! "Done" = None ∧
  entriesNamed "Done" (PageData_Properties result.1) = [].
Proof.
  intros result. split; [reflexivity|].
  by apply (convert_unsupported_dropped sampleMismatch _ sampleSchema "Done"
              (Bool true) PropertyConfigTypeCheckbox eq_refl eq_refl eq_refl).
Defined.

(** Without an object under "properties" the function returns its error
    and the empty record it started with. *)
Lemma convert_malformed_eq (raw : gmap string value) (schema : Database) :
  (∀ props, raw !! "properties" ≠ Some (Map props)) →
  convertToNotionProperties raw schema
  = (mkPageData ∅, Some "expected key 'properties' in data, got none").
Proof.
  intros Hraw. unfold convertToNotionProperties.
  destruct (raw !! "properties") as [[]|]; try done.
  by edestruct Hraw.
Qed.

(** C4. For every raw record that has no "properties" key, or whose
    "properties" value is not an object, the function returns the error
    "expected key 'properties' in data, got none" together with a record
    that has no entries. *)
Theorem convert_malformed (raw : gmap string value) (schema : Database) :
  (∀ props, raw !! "properties" ≠ Some (Map props)) →
  convertToNotionProperties raw schema
  = (mkPageData ∅, Some "expected key 'properties' in data, got none").
Proof. apply convert_malformed_eq. Qed.

Lemma convert_malformed_witness :
  sampleMalformed !! "properties" = None ∧
  convertToNotionProperties sampleMalformed sampleSchema
  = (mkPageData ∅, Some "expected key 'properties' in data, got none").
Proof.
  split; [reflexivity|].
  apply (convert_malformed sampleMalformed sampleSchema).
  intros props. discriminate.
Defined.

(** The same on a record whose "properties" value is a string. *)
Example convert_malformed_string :
  convertToNotionProperties {[ "properties" := Str "Name" ]} sampleSchema
  = (mkPageData ∅, Some "expected key 'properties' in data, got none").
Proof. apply convert_malformed_eq. intros props. discriminate. Qed.

(** C5. For every raw record and schema, every key of the coerced record
    is a key of the schema; and a field of the nested field-map whose name
    is not in the schema leaves no entry and causes no error. *)
Theorem convert_keys_in_schema (raw : gmap string value) (schema : Database) :
  let result := convertToNotionProperties raw schema in
  dom (PageData_Properties result.1) ⊆ dom (Database_Properties schema) ∧
  ∀ props k v,
    raw !! "properties" = Some (Map props) →
    props !! k = Some v →
    Database_Properties schema !! k = None →
    PageData_Properties result.1 !! k = None ∧ result.2 = None.
Proof.
  intros result. split.
  - intros k [p Hp]%elem_of_dom. apply elem_of_dom.
    unfold result in Hp.
    assert (Hcase : (∃ props, raw !! "properties" = Some (Map props)) ∨
                    (∀ props, raw !! "properties" ≠ Some (Map props))).
    { destruct (raw !! "properties") as [[]|]; eauto; by right. }
    destruct Hcase as [[props Hraw]|Hraw].
    + rewrite (lookup_convertToNotionProperties _ _ _ _ Hraw) in Hp.
      destruct (props !! k) as [v|]; [|done]. cbn in Hp.
      unfold fieldProperty in Hp.
      by destruct (Database_Properties schema !! k).
    + rewrite (convert_malformed_eq _ _ Hraw) in Hp. cbn in Hp.
      by rewrite lookup_empty in Hp.
  - intros props k v Hraw Hk Hschema. split.
    + unfold result.
      rewrite (lookup_convertToNotionProperties _ _ _ _ Hraw), Hk. cbn.
      unfold fieldProperty. by rewrite Hschema.
    + by apply convertToNotionProperties_no_error with props.
Qed.

Lemma convert_keys_in_schema_witness :
  let result := convertToNotionProperties sampleMismatch sampleSchema in
  Database_Properties sampleSchema !! "Unknown" = None ∧
  PageData_Properties result.1 !! "Unknown" = None ∧ result.2 = None.
Proof.
  intros result. split; [reflexivity|].
  exact (proj2 (convert_keys_in_schema sampleMismatch sampleSchema)
               _ "Unknown" (Str "x") eq_refl eq_refl eq_refl).
Defined.

(** C10. The function returns an error exactly when the raw record has no
    "properties" key or its value is not an object; so whenever that value
    is an object, no field, value or column type makes it return one. *)
Theorem convert_error_iff (raw : gmap string value) (schema : Database) :
  ((convertToNotionProperties raw schema).2 ≠ None ↔
   ¬ ∃ props, raw !! "properties" = Some (Map props)) ∧
  ∀ props, raw !! "properties" = Some (Map props) →
           (convertToNotionProperties raw schema).2 = None.
Proof.
  split; [|apply convertToNotionProperties_no_error].
  split.
  - intros Herr [props Hraw]. apply Herr.
    by apply convertToNotionProperties_no_error with props.
  - intros Hraw. rewrite convert_malformed_eq; [done|].
    intros props Hp. apply Hraw. by exists props.
Qed.

Lemma convert_error_iff_witness :
  (convertToNotionProperties sampleMismatch sampleSchema).2 = None ∧
  (convertToNotionProperties sampleMalformed sampleSchema).2 ≠ None.
Proof.
  split.
  - exact (proj2 (convert_error_iff sampleMismatch sampleSchema) _ eq_refl).
  - apply (proj1 (convert_error_iff sampleMalformed sampleSchema)).
    intros [props Hp]. discriminate Hp.
Defined.

(** ** The insert command *)

Example Sample_run :
  Sample.run =
  (mkState 3
     [Stdout (MsgReading "data.json");
      Stdout (MsgFound 3 "1d4a5e7f-e231-80b9-8df2-ddce1ea05ddf");
      DatabaseGet "secret" "1d4a5e7f-e231-80b9-8df2-ddce1ea05ddf";
      Stdout (MsgConvertError 2 "expected key 'properties' in data, got none");
      Stdout (MsgInserting 1);
      PageCreate "secret"
        (requestFor "1d4a5e7f-e231-80b9-8df2-ddce1ea05ddf"
           (convertToNotionProperties sampleRecord sampleSchema).1);
      Stdout (MsgFailed "Could not find database with ID");
      Stdout MsgPermissionHelp;
      Stdout MsgMoreHelp;
      Stdout (MsgInserting 2);
      PageCreate "secret"
        (requestFor "1d4a5e7f-e231-80b9-8df2-ddce1ea05ddf"
           (convertToNotionProperties sampleMismatch sampleSchema).1);
      Stdout (MsgFailed "Could not find database with ID");
      Stdout MsgPermissionHelp;
      Stdout (MsgFinished 0 2);
      Stdout MsgNoneInserted],
   Returned tt).
Proof. vm_compute. reflexivity. Qed.

Section InsertFacts.

Context {World : Type}.
Variable Getenv : string → string.
Variable ReadFile : string → string + error.
Variable Unmarshal_slice : string → list RawPageData + error.
Variable Unmarshal_single : string → RawPageData + error.
Variable MarshalIndent : PageCreateRequest → string.
Variable Database_Get : string → string → World → World * (Database + error).
Variable Page_Create :
  string → PageCreateRequest → World → World * (Page + error).

Implicit Types (st : @state World) (requests : list PageCreateRequest).

Lemma bind_Returned {A B} (c : Cmd A) (k : A → Cmd B) st st' (a : A) :
  c st = (st', Returned a) → bind c k st = k a st'.
Proof. intros H. unfold bind. by rewrite H. Qed.

Lemma submits_ret {A} (a : A) (post : A → Prop) :
  post a → submits (World:=World) (ret a) [] post.
Proof. intros H st. exists st, a. by rewrite app_nil_r. Qed.

Lemma submits_bind {A B} (c : Cmd A) (k : A → Cmd B) requests1 requests2
    (mid : A → Prop) (post : B → Prop) :
  submits (World:=World) c requests1 mid →
  (∀ a, mid a → submits (k a) requests2 post) →
  submits (bind c k) (requests1 ++ requests2) post.
Proof.
  intros Hc Hk st.
  destruct (Hc st) as (st1 & a & Hrun1 & Hsub1 & Ha).
  destruct (Hk a Ha st1) as (st2 & b & Hrun2 & Hsub2 & Hb).
  exists st2, b. rewrite (bind_Returned _ _ _ _ _ Hrun1).
  by rewrite Hsub2, Hsub1, app_assoc.
Qed.

(** A silent command in front changes nothing. *)
Lemma submits_seq {A B} (c : Cmd A) (k : A → Cmd B) requests
    (post : B → Prop) :
  submits (World:=World) c [] (λ _, True) →
  (∀ a, submits (k a) requests post) →
  submits (bind c k) requests post.
Proof.
  intros Hc Hk. change requests with ([] ++ requests).
  apply submits_bind with (λ _, True); auto.
Qed.

Lemma submits_weaken {A} (c : Cmd A) requests (post post' : A → Prop) :
  submits (World:=World) c requests post → (∀ a, post a → post' a) →
  submits c requests post'.
Proof.
  intros Hc Himp st. destruct (Hc st) as (st' & a & ? & ? & ?).
  exists st', a. auto.
Qed.

Lemma submits_Println (m : message) :
  submits (World:=World) (Println m) [] (λ _, True).
Proof.
  intros st. eexists _, tt. split; [reflexivity|]. split; [|done].
  unfold submissions. cbn [trace]. by rewrite omap_app.
Qed.

Lemma submits_when (b : bool) (c : Cmd unit) :
  submits (World:=World) c [] (λ _, True) → submits (when b c) [] (λ _, True).
Proof. intros Hc. destruct b; [exact Hc | by apply submits_ret]. Qed.

Lemma submits_forEach {A} (xs : list A) (body : A → Cmd unit) :
  (∀ x, submits (World:=World) (body x) [] (λ _, True)) →
  submits (forEach xs body) [] (λ _, True).
Proof.
  intros Hbody. induction xs as [|x xs IH]; cbn [forEach].
  - by apply submits_ret.
  - apply submits_seq; auto.
Qed.

Lemma submits_Database_Get (token dbID : string) :
  submits (client_Database_Get Database_Get token dbID) [] (λ _, True).
Proof.
  intros st. unfold client_Database_Get.
  destruct (Database_Get token dbID (world st)) as [w answer].
  eexists _, answer. split; [reflexivity|]. split; [|done].
  unfold submissions. cbn [trace]. by rewrite omap_app.
Qed.

(** Whatever the service answers, the call is made and [Run] goes on. *)
Lemma submits_Page_Create (token : string) (request : PageCreateRequest) :
  submits (client_Page_Create Page_Create token request) [request] (λ _, True).
Proof.
  intros st. unfold client_Page_Create.
  destruct (Page_Create token request (world st)) as [w answer].
  eexists _, answer. split; [reflexivity|]. split; [|done].
  unfold submissions. cbn [trace]. by rewrite omap_app.
Qed.

Lemma submits_warnUnknownProperties (token dbID : string) (pageData : PageData) :
  submits (warnUnknownProperties Database_Get token dbID pageData) []
          (λ _, True).
Proof.
  unfold warnUnknownProperties.
  apply submits_seq; [apply submits_Database_Get|].
  intros [database|err]; [|by apply submits_ret].
  apply submits_forEach. intros propName.
  destruct (Database_Properties database !! propName).
  - by apply submits_ret.
  - apply submits_Println.
Qed.

(** The first loop submits nothing and leaves in [pagesData] the pages of
    the records that convert, in the order of the records. *)
Lemma submits_convertLoop (debugMode : bool) (database : Database)
    (rawData : list RawPageData) :
  ∀ (i : nat) (pagesData : list PageData),
    submits (World:=World) (convertLoop debugMode database i rawData pagesData)
      [] (λ result, result = pagesData ++ convertedPages database rawData).
Proof.
  induction rawData as [|raw rest IH]; intros i pagesData; cbn [convertLoop].
  - apply submits_ret. unfold convertedPages. cbn. by rewrite app_nil_r.
  - apply submits_seq; [apply submits_when, submits_Println|]. intros _.
    unfold convertedPages. cbn [omap list_omap].
    destruct (convertToNotionProperties raw database) as [pageData [err|]].
    + apply submits_seq; [apply submits_Println|]. intros _. apply IH.
    + eapply submits_weaken; [apply IH|].
      intros result ->. cbn. by rewrite <- app_assoc.
Qed.

(** The second loop calls [Page.Create] once for each page, in order,
    whatever the earlier calls answered, and counts at most one success
    per page. *)
Lemma submits_insertLoop (debugMode : bool) (token dbID : string)
    (pagesData : list PageData) :
  ∀ (i successCount : nat),
    submits (insertLoop MarshalIndent Database_Get Page_Create
               debugMode token dbID i pagesData successCount)
      (requestFor dbID <$> pagesData)
      (λ n, successCount ≤ n ≤ successCount + length pagesData).
Proof.
  induction pagesData as [|pageData rest IH]; intros i successCount;
    cbn [insertLoop].
  - apply submits_ret. cbn. lia.
  - apply submits_seq; [apply submits_Println|]. intros _.
    apply submits_seq;
      [apply submits_when, submits_warnUnknownProperties|]. intros _.
    apply submits_seq; [apply submits_when, submits_Println|]. intros _.
    change (requestFor dbID <$> pageData :: rest)
      with ([requestFor dbID pageData] ++ (requestFor dbID <$> rest)).
    eapply submits_bind; [apply submits_Page_Create|].
    intros [response|err] _.
    + apply submits_seq; [apply submits_Println|]. intros _.
      apply submits_seq; [apply submits_when, submits_Println|]. intros _.
      eapply submits_weaken; [apply IH|]. cbn. lia.
    + apply submits_seq; [apply submits_Println|]. intros _.
      apply submits_seq.
      { apply submits_when. apply submits_seq; [apply submits_Println|].
        intros _. apply submits_when, submits_Println. }
      intros _. eapply submits_weaken; [apply IH|]. cbn. lia.
Qed.

(** What [Run] does once the schema is fetched: both loops and the
    summary. It returns, and its [PageCreate] calls are the requests for
    the converted pages, in the order of the records. *)
Lemma submits_after_fetch (debugMode : bool) (apiKey dbID : string)
    (database : Database) (rawData : list RawPageData) :
  submits
    (bind (convertLoop debugMode database 0 rawData []) (λ pagesData,
       bind (insertLoop MarshalIndent Database_Get Page_Create
               debugMode apiKey dbID 0 pagesData 0) (λ successCount,
         if (0 <? successCount)%nat then
           bind (Println (MsgFinished successCount (length pagesData)))
                (λ _, Println MsgTip)
         else
           bind (Println (MsgFinished successCount (length pagesData)))
                (λ _, Println MsgNoneInserted))))
    (requestFor dbID <$> convertedPages database rawData)
    (λ _, True).
Proof.
  change (requestFor dbID <$> convertedPages database rawData)
    with ([] ++ (requestFor dbID <$> convertedPages database rawData)).
  eapply submits_bind; [apply submits_convertLoop|].
  intros pagesData ->. cbn [app].
  rewrite <- (app_nil_r (requestFor dbID <$> _)).
  eapply submits_bind; [apply submits_insertLoop|].
  intros successCount _.
  destruct (0 <? successCount)%nat;
    (apply submits_seq; [apply submits_Println|]; intros _;
     apply submits_Println).
Qed.

(** C6. For every insert run in which the flags are given, the cleaned
    identifier is a UUID, a credential is found, the file is read and parsed
    and the schema fetch succeeds, [Run] returns, so the exit code is 0,
    whatever [Page.Create] answers; and [Page.Create] is called for every
    converted record, in the order of the input, whichever calls fail. *)
Theorem insert_exit_zero_all_submitted (fuel : nat) (flags : Flags)
    (w w1 : World) (dbID content : string) (rawData : list RawPageData)
    (database : Database) :
  let apiKey :=
    if (flag_api_key flags =? "")%string then Getenv "NOTION_API_KEY"
    else flag_api_key flags in
  flag_db flags ≠ "" →
  flag_data flags ≠ "" →
  cleanDatabaseID fuel (flag_db flags) = Some dbID →
  isValidUUID dbID = true →
  apiKey ≠ "" →
  ReadFile (flag_data flags) = inl content →
  parsedRecords Unmarshal_slice Unmarshal_single content = Some rawData →
  Database_Get apiKey dbID w = (w1, inl database) →
  let run :=
    insertCmd_Run Getenv ReadFile Unmarshal_slice Unmarshal_single
      MarshalIndent Database_Get Page_Create fuel flags (mkState w []) in
  exitCode run.2 = Some 0%Z ∧
  submissions (trace run.1)
  = requestFor dbID <$> convertedPages database rawData.
Proof.
  intros apiKey Hdb%String.eqb_neq Hdata%String.eqb_neq Hclean Hvalid
    Hkey%String.eqb_neq Hread Hparse Hget run.
  unfold parsedRecords in Hparse.
  assert (Hrecords :
    ∀ st, match Unmarshal_slice content with
          | inl rawData => ret rawData
          | inr err =>
              match Unmarshal_single content with
              | inr errSingle =>
                  bind (Println (MsgParseError err)) (λ _, os_Exit 1)
              | inl singleRawData => ret [singleRawData]
              end
          end st = (st, Returned rawData)).
  { intros st. destruct (Unmarshal_slice content) as [records|err].
    - by injection Hparse as ->.
    - destruct (Unmarshal_single content) as [single|errSingle]; [|done].
      by injection Hparse as <-. }
  subst run. unfold insertCmd_Run. fold apiKey.
  rewrite (bind_Returned _ _ _ (mkState w []) tt)
    by (by rewrite Hdb, Hdata).
  rewrite (bind_Returned _ _ _ (mkState w []) dbID)
    by (unfold call_cleanDatabaseID; by rewrite Hclean).
  rewrite (bind_Returned _ _ _ (mkState w []) tt) by (by rewrite Hvalid).
  rewrite (bind_Returned _ _ _ (mkState w []) tt) by (by rewrite Hkey).
  erewrite bind_Returned by reflexivity.
  rewrite Hread.
  destruct (flag_debug flags).
  all: erewrite bind_Returned by reflexivity.
  all: rewrite (bind_Returned _ _ _ _ _ (Hrecords _)).
  all: erewrite bind_Returned by reflexivity.
  all: erewrite bind_Returned
         by (unfold client_Database_Get; cbn [world]; rewrite Hget; reflexivity).
  all: cbv beta iota.
  all: match goal with
       | |- exitCode (bind (convertLoop ?debugMode _ _ _ _) _ ?st).2 = _ ∧ _ =>
           destruct (submits_after_fetch debugMode apiKey dbID database rawData st)
             as (st' & [] & -> & Hsub & _)
       end.
  all: split; [reflexivity|]; cbn [fst]; by rewrite Hsub.
Qed.

End InsertFacts.

(** With a service that refuses every page: three records, one of them
    malformed, the two others submitted in order, exit code 0. *)
Lemma insert_exit_zero_all_submitted_witness :
  exitCode Sample.run.2 = Some 0%Z ∧
  submissions (trace Sample.run.1)
  = [requestFor "1d4a5e7f-e231-80b9-8df2-ddce1ea05ddf"
       (convertToNotionProperties sampleRecord sampleSchema).1;
     requestFor "1d4a5e7f-e231-80b9-8df2-ddce1ea05ddf"
       (convertToNotionProperties sampleMismatch sampleSchema).1].
Proof.
  refine (insert_exit_zero_all_submitted
            Sample.Getenv Sample.ReadFile Sample.Unmarshal_slice
            Sample.Unmarshal_single Sample.MarshalIndent
            Sample.Database_Get Sample.Page_Create
            1 Sample.flags 0 1 "1d4a5e7f-e231-80b9-8df2-ddce1ea05ddf" "[...]"
            [sampleRecord; sampleMalformed; sampleMismatch] sampleSchema
            _ _ eq_refl eq_refl _ eq_refl eq_refl eq_refl);
    discriminate.
Defined.

(** * Further properties of the code *)

(** ** Identifiers *)

Section IdentifierFacts.

Import Strings.

Lemma inClass_cons (c d : ascii) (s : string) :
  inClass c (String d s) = Ascii.eqb c d || inClass c s.
Proof. reflexivity. Qed.

Lemma inClass_app (c : ascii) (s t : string) :
  inClass c (s +:+ t) = inClass c s || inClass c t.
Proof.
  induction s as [|d s IH]; [done|].
  by rewrite append_cons, !inClass_cons, IH, orb_assoc.
Qed.

(** Containing a one-byte string is holding that byte. *)
Lemma Contains_byte (s : string) (c : ascii) :
  Contains s (String c EmptyString) = inClass c s.
Proof.
  induction s as [|d s IH]; [done|].
  cbn [Contains]. rewrite IH, inClass_cons.
  cbn [HasPrefix]. replace (HasPrefix s "") with true by by destruct s.
  by rewrite andb_true_r, Ascii.eqb_sym.
Qed.

(** The bytes of the last piece are bytes of the whole string. *)
Lemma inClass_lastElem_Split (s : string) (sep c : ascii) :
  inClass c (lastElem (Split s sep)) = true → inClass c s = true.
Proof.
  unfold lastElem.
  induction s as [|d s IH]; cbn [Split]; [done|].
  pose proof (Split_not_nil s sep) as Hnil.
  assert (Hs : inClass c s = true → inClass c (String d s) = true).
  { intros Hs. rewrite inClass_cons, Hs. apply orb_true_r. }
  destruct (Ascii.eqb d sep).
  - destruct (Split s sep) as [|p ps]; [done|]. auto.
  - destruct (Split s sep) as [|p [|q qs]]; [done| |auto].
    cbn [List.last] in *. intros H. rewrite inClass_cons in H.
    apply orb_true_iff in H as [H|H]; [|auto].
    rewrite inClass_cons, H. done.
Qed.

Lemma MatchString_Rep_inv (class s : string) (n : nat) (r : Regexp) :
  MatchString (Rep class n :: r) s = true →
  ∃ pre rest, s = pre +:+ rest ∧ String.length pre = n ∧
              allIn class pre = true ∧ MatchString r rest = true.
Proof.
  cbn [MatchString].
  destruct (matchRep class n s) as [rest|] eqn:H; [|done].
  apply matchRep_inv in H as (pre & -> & Hn & Hpre). intros Hr.
  by exists pre, rest.
Qed.

Lemma MatchString_Lit_inv (c : ascii) (s : string) (r : Regexp) :
  MatchString (Lit c :: r) s = true →
  ∃ rest, s = String c rest ∧ MatchString r rest = true.
Proof.
  cbn [MatchString]. destruct s as [|d s]; [done|].
  intros [->%Ascii.eqb_eq Hr]%andb_true_iff. by exists s.
Qed.

Lemma MatchString_nil_inv (s : string) : MatchString [] s = true → s = "".
Proof. by destruct s. Qed.

(** What [isValidUUID] accepts has a dash. *)
Lemma isValidUUID_has_dash (uuid : string) :
  isValidUUID uuid = true → Contains uuid "-" = true.
Proof.
  unfold isValidUUID, uuidRegexp.
  intros (a & rest & -> & _ & _ & (rest' & -> & _)%MatchString_Lit_inv)%MatchString_Rep_inv.
  rewrite Contains_byte, inClass_app, inClass_cons, Ascii.eqb_refl.
  apply orb_true_r.
Qed.

Lemma dashedUUID_has_dash (input : string) :
  Contains (dashedUUID input) "-" = true.
Proof.
  unfold dashedUUID.
  change (slice input 0 8 +:+ "-" +:+ ?t)
    with (slice input 0 8 +:+ String "-" t).
  rewrite Contains_byte, inClass_app, inClass_cons, Ascii.eqb_refl.
  apply orb_true_r.
Qed.

(** The hex-digit branch, whatever the number of calls allowed. *)
Lemma cleanDatabaseID_hex32_eq (input : string) (fuel : nat) :
  MatchString hex32Regexp input = true →
  cleanDatabaseID (S fuel) input = Some (dashedUUID input) ∧
  isValidUUID (dashedUUID input) = true.
Proof.
  intros Hm. pose proof Hm as [Hlen Hhex]%MatchString_hex32.
  split.
  - by rewrite cleanDatabaseID_S, (hex32_no_dash _ Hlen Hhex), Hm.
  - apply isValidUUID_dashed;
      try (unfold slice; by apply substring_allIn);
      unfold slice; apply substring_length; lia.
Qed.

End IdentifierFacts.

(** A valid UUID has a dash, so the first test returns it. *)
Lemma cleanDatabaseID_uuid_eq (uuid : string) (fuel : nat) :
  isValidUUID uuid = true → cleanDatabaseID (S fuel) uuid = Some uuid.
Proof.
  intros H. by rewrite cleanDatabaseID_S, (isValidUUID_has_dash _ H).
Qed.

(** What some number of calls returns, two calls return. *)
Lemma cleanDatabaseID_returns_two (input output : string) :
  cleanDatabaseID_returns input output → cleanDatabaseID 2 input = Some output.
Proof.
  intros [fuel H].
  destruct (cleanDatabaseID 2 input) as [output'|] eqn:H2.
  - apply (cleanDatabaseID_mono 2 (2 + fuel)) in H2; [|lia].
    apply (cleanDatabaseID_mono fuel (2 + fuel)) in H; [|lia]. congruence.
  - by rewrite (cleanDatabaseID_two_calls _ H2) in H.
Qed.

(** X1. [cleanDatabaseID] is idempotent: what a call returns, any further
    call returns unchanged. *)
Theorem cleanDatabaseID_idempotent (input output : string) (fuel fuel' : nat) :
  cleanDatabaseID fuel input = Some output →
  cleanDatabaseID (S fuel') output = Some output.
Proof.
  revert input. induction fuel as [|fuel IH]; intros input; [done|].
  rewrite cleanDatabaseID_S.
  destruct (Strings.Contains input "-") eqn:Hdash.
  { intros [= <-]. by rewrite cleanDatabaseID_S, Hdash. }
  destruct (MatchString hex32Regexp input) eqn:Hhex.
  { intros [= <-]. fold (dashedUUID input).
    by rewrite cleanDatabaseID_S, dashedUUID_has_dash. }
  destruct (Strings.Contains input "notion.so") eqn:Hurl.
  - destruct (32 <=? String.length (lastElem (Strings.Split input "/")))%nat
      eqn:Hlen; [apply IH|].
    intros [= <-]. by rewrite cleanDatabaseID_S, Hdash, Hhex, Hurl, Hlen.
  - intros [= <-]. by rewrite cleanDatabaseID_S, Hdash, Hhex, Hurl.
Qed.

Lemma cleanDatabaseID_idempotent_witness :
  cleanDatabaseID 2 "https://www.notion.so/1d4a5e7fe23180b98df2ddce1ea05ddf"
  = Some "1d4a5e7f-e231-80b9-8df2-ddce1ea05ddf" ∧
  cleanDatabaseID 1 "1d4a5e7f-e231-80b9-8df2-ddce1ea05ddf"
  = Some "1d4a5e7f-e231-80b9-8df2-ddce1ea05ddf".
Proof.
  split; [reflexivity|].
  exact (cleanDatabaseID_idempotent
           "https://www.notion.so/1d4a5e7fe23180b98df2ddce1ea05ddf"
           "1d4a5e7f-e231-80b9-8df2-ddce1ea05ddf" 2 0 eq_refl).
Defined.

(** X2. A string [isValidUUID] accepts goes through [cleanDatabaseID]
    unchanged, in one call. *)
Theorem cleanDatabaseID_valid_uuid (uuid : string) (fuel : nat) :
  isValidUUID uuid = true → cleanDatabaseID (S fuel) uuid = Some uuid.
Proof. apply cleanDatabaseID_uuid_eq. Qed.

Lemma cleanDatabaseID_valid_uuid_witness :
  isValidUUID "f1a2b3c4-d5e6-7f8a-9b0c-1d2e3f4a5b6c" = true ∧
  cleanDatabaseID 1 "f1a2b3c4-d5e6-7f8a-9b0c-1d2e3f4a5b6c"
  = Some "f1a2b3c4-d5e6-7f8a-9b0c-1d2e3f4a5b6c".
Proof.
  split; [reflexivity|].
  exact (cleanDatabaseID_valid_uuid
           "f1a2b3c4-d5e6-7f8a-9b0c-1d2e3f4a5b6c" 0 eq_refl).
Defined.

(** X3. Two nested calls are all [cleanDatabaseID] ever needs: it returns
    [output] on [input] exactly when it does so within two calls. So the
    calls that never return are those on which two calls are not enough. *)
Theorem cleanDatabaseID_returns_iff (input output : string) :
  cleanDatabaseID_returns input output ↔ cleanDatabaseID 2 input = Some output.
Proof. split; [apply cleanDatabaseID_returns_two | by exists 2]. Qed.

(** X4. [isValidUUID] accepts exactly the strings made of five groups of
    8, 4, 4, 4 and 12 hex digits joined by dashes. *)
Theorem isValidUUID_iff (uuid : string) :
  isValidUUID uuid = true ↔
  ∃ a b c d e,
    uuid = a +:+ "-" +:+ b +:+ "-" +:+ c +:+ "-" +:+ d +:+ "-" +:+ e ∧
    (String.length a = 8 ∧ allIn hexClass a = true) ∧
    (String.length b = 4 ∧ allIn hexClass b = true) ∧
    (String.length c = 4 ∧ allIn hexClass c = true) ∧
    (String.length d = 4 ∧ allIn hexClass d = true) ∧
    (String.length e = 12 ∧ allIn hexClass e = true).
Proof.
  split.
  - unfold isValidUUID, uuidRegexp.
    intros (a & ? & -> & La & Ha & (? & -> &
           (b & ? & -> & Lb & Hb & (? & -> &
           (c & ? & -> & Lc & Hc & (? & -> &
           (d & ? & -> & Ld & Hd & (? & -> &
           (e & ? & -> & Le & He & ->%MatchString_nil_inv)%MatchString_Rep_inv
           )%MatchString_Lit_inv)%MatchString_Rep_inv
           )%MatchString_Lit_inv)%MatchString_Rep_inv
           )%MatchString_Lit_inv)%MatchString_Rep_inv
           )%MatchString_Lit_inv)%MatchString_Rep_inv.
    exists a, b, c, d, e. by rewrite append_empty_r.
  - intros (a & b & c & d & e & -> & [] & [] & [] & [] & []).
    by apply isValidUUID_dashed.
Qed.

(** X5. The identifiers that pass the check of both commands. A call of
    [cleanDatabaseID] returns a string [isValidUUID] accepts in exactly
    three cases: the input is such a string already and is returned as it
    is; the input is 32 hex digits and comes back dashed; or the input has
    no dash, contains "notion.so", and its segment after the last slash is
    32 hex digits, which come back dashed. *)
Theorem cleanDatabaseID_accepted_iff (input output : string) :
  cleanDatabaseID_returns input output ∧ isValidUUID output = true ↔
  isValidUUID input = true ∧ output = input ∨
  MatchString hex32Regexp input = true ∧ output = dashedUUID input ∨
  Strings.Contains input "-" = false ∧
    Strings.Contains input "notion.so" = true ∧
    MatchString hex32Regexp (lastElem (Strings.Split input "/")) = true ∧
    output = dashedUUID (lastElem (Strings.Split input "/")).
Proof.
  split.
  - intros [Hret%cleanDatabaseID_returns_two Hvalid].
    pose proof (isValidUUID_has_dash _ Hvalid) as Hout.
    revert Hret. rewrite cleanDatabaseID_S.
    destruct (Strings.Contains input "-") eqn:Hdash.
    { intros [= <-]. by left. }
    destruct (MatchString hex32Regexp input) eqn:Hhex.
    { intros [= <-]. right; by left. }
    destruct (Strings.Contains input "notion.so") eqn:Hurl;
      [|intros [= <-]; congruence].
    destruct (32 <=? _)%nat; [|intros [= <-]; congruence].
    set (lastPart := lastElem (Strings.Split input "/")).
    assert (Hlast : Strings.Contains lastPart "-" = false).
    { rewrite Contains_byte. rewrite Contains_byte in Hdash.
      destruct (inClass "-" lastPart) eqn:Hc; [|done].
      apply inClass_lastElem_Split in Hc. congruence. }
    rewrite cleanDatabaseID_S, Hlast.
    destruct (MatchString hex32Regexp lastPart) eqn:Hhex'.
    { intros [= <-]. right; right. done. }
    destruct (Strings.Contains lastPart "notion.so");
      [|intros [= <-]; congruence].
    destruct (32 <=? _)%nat; [done|intros [= <-]; congruence].
  - intros [[Hvalid ->] | [[Hhex ->] | (Hdash & Hurl & Hhex & ->)]].
    + split; [|done]. exists 1. by apply cleanDatabaseID_uuid_eq.
    + destruct (cleanDatabaseID_hex32_eq _ 0 Hhex). split; [by exists 1|done].
    + destruct (cleanDatabaseID_hex32_eq _ 0 Hhex) as [Hclean Hvalid].
      split; [|done].
      exists 2. rewrite cleanDatabaseID_S, Hdash, Hurl.
      rewrite (hex32_not_notion_url _ Hurl).
      pose proof Hhex as [-> _]%MatchString_hex32. by cbn [Nat.leb].
Qed.

(** ** Coercion *)

Section CoercionFacts.

Context (schema : Database).

(** The coerced record is the field-map, each field replaced by its
    property or removed. *)
Lemma convertToNotionProperties_imap (raw props : gmap string value) :
  raw !! "properties" = Some (Map props) →
  PageData_Properties (convertToNotionProperties raw schema).1
  = map_imap (fieldProperty schema) props.
Proof.
  intros Hraw. apply map_eq. intros k.
  by rewrite (lookup_convertToNotionProperties _ _ _ _ Hraw), map_lookup_imap.
Qed.

Lemma spec_dropped_fieldProperty (k : string) (v : value) :
  spec_dropped schema (k, v)
  = match fieldProperty schema k v with Some _ => false | None => true end.
Proof.
  unfold spec_dropped, fieldProperty. cbn [fst snd].
  destruct (Database_Properties schema !! k) as [[]|]; by destruct v.
Qed.

Lemma filter_length_Permutation {A} (f : A → bool) (l l' : list A) :
  l ≡ₚ l' → length (List.filter f l) = length (List.filter f l').
Proof.
  induction 1 as [|x l l' _ IH|x y l|l l' l'' _ IH _ IH']; cbn.
  - done.
  - destruct (f x); cbn; by rewrite IH.
  - by destruct (f x), (f y).
  - by rewrite IH.
Qed.

(** Every field either gives an entry or is counted as dropped. *)
Lemma size_imap_dropped (props : gmap string value) :
  size (map_imap (fieldProperty schema) props)
  + length (List.filter (spec_dropped schema) (map_to_list props))
  = size props.
Proof.
  induction props as [|k v props Hk IH] using map_ind.
  - by rewrite map_imap_empty, map_to_list_empty, !map_size_empty.
  - rewrite (filter_length_Permutation _ _ _ (map_to_list_insert props k v Hk)).
    rewrite map_size_insert_None by done. cbn [List.filter].
    rewrite spec_dropped_fieldProperty.
    destruct (fieldProperty schema k v) as [p|] eqn:Hp.
    + rewrite (map_imap_insert_Some _ _ _ _ _ Hp).
      rewrite map_size_insert_None by by rewrite map_lookup_imap, Hk.
      lia.
    + rewrite (map_imap_insert_None _ _ _ _ Hp).
      rewrite delete_id by by rewrite map_lookup_imap, Hk.
      cbn [length]. lia.
Qed.

End CoercionFacts.

(** X6. Where every entry of the coerced record comes from: the record has
    an entry under a name exactly when the field of that name is a string
    in a Title or RichText column, or a number in a Number column, and the
    entry is then the property built from that value. No entry comes from
    a null, a boolean, an array or an object, or from any other column. *)
Theorem convert_entry_iff (raw props : gmap string value) (schema : Database)
    (k : string) (p : Property) :
  raw !! "properties" = Some (Map props) →
  PageData_Properties (convertToNotionProperties raw schema).1 !! k = Some p ↔
  (∃ s, props !! k = Some (Str s) ∧
        (Database_Properties schema !! k = Some PropertyConfigTypeTitle ∧
         p = TitleProperty [mkRichText (Some (mkText s))] ∨
         Database_Properties schema !! k = Some PropertyConfigTypeRichText ∧
         p = RichTextProperty [mkRichText (Some (mkText s))])) ∨
  (∃ f, props !! k = Some (Float64 f) ∧
        Database_Properties schema !! k = Some PropertyConfigTypeNumber ∧
        p = NumberProperty f).
Proof.
  intros Hraw. rewrite (lookup_convertToNotionProperties _ _ _ _ Hraw).
  unfold fieldProperty. split.
  - destruct (props !! k) as [v|]; [cbn|done].
    destruct (Database_Properties schema !! k) as [[]|]; try done;
      destruct v; try done; intros [= <-]; eauto 10.
  - intros [(s & -> & [[-> ->] | [-> ->]]) | (f & -> & -> & ->)]; done.
Qed.

Lemma convert_entry_iff_witness :
  sampleRecord !! "properties"
  = Some (Map {[ "Name" := Str "A"; "Notes" := Str "n"; "Age" := Float64 25 ]}) ∧
  PageData_Properties (convertToNotionProperties sampleRecord sampleSchema).1
    !! "Age" = Some (NumberProperty 25).
Proof.
  split; [reflexivity|].
  apply (convert_entry_iff sampleRecord _ sampleSchema "Age" _ eq_refl).
  right. by exists 25%float.
Defined.

(** X7. The result does not depend on the order in which the runtime hands
    out the fields of the map: running the loop body over any enumeration
    of the field-map gives the record the function returns. *)
Theorem convert_order_independent (raw props : gmap string value)
    (schema : Database) (entries : list (string * value)) :
  raw !! "properties" = Some (Map props) →
  entries ≡ₚ map_to_list props →
  convertEntries schema entries ∅
  = PageData_Properties (convertToNotionProperties raw schema).1.
Proof.
  intros Hraw Hp. unfold convertToNotionProperties. rewrite Hraw.
  cbn [fst PageData_Properties].
  apply convertEntries_Permutation; [|done].
  rewrite Hp. apply NoDup_fst_map_to_list.
Qed.

Lemma convert_order_independent_witness :
  convertEntries sampleSchema
    [("Name", Str "A"); ("Age", Float64 25); ("Notes", Str "n")] ∅
  = PageData_Properties (convertToNotionProperties sampleRecord sampleSchema).1.
Proof.
  apply (convert_order_independent sampleRecord _ sampleSchema _ eq_refl).
  vm_compute map_to_list. solve_Permutation.
Defined.

(** X8. The dropped-field count of the specification's contract, which the
    function does not return, is the number of fields minus the number of
    entries of the coerced record: entries and dropped fields add up to
    the fields of the field-map. *)
Theorem convert_size_dropped (raw props : gmap string value) (schema : Database) :
  raw !! "properties" = Some (Map props) →
  size (PageData_Properties (convertToNotionProperties raw schema).1)
  + spec_droppedFieldCount raw schema
  = size props.
Proof.
  intros Hraw. rewrite (convertToNotionProperties_imap _ _ _ Hraw).
  unfold spec_droppedFieldCount. rewrite Hraw. apply size_imap_dropped.
Qed.

Lemma convert_size_dropped_witness :
  size (PageData_Properties
          (convertToNotionProperties sampleMismatch sampleSchema).1)
  + spec_droppedFieldCount sampleMismatch sampleSchema = 4.
Proof.
  exact (convert_size_dropped sampleMismatch _ sampleSchema eq_refl).
Defined.

(** ** Helpers of the inspect command *)

(** [quoted] puts the double-quote byte, 34, on both sides. *)
Example quoted_bytes :
  quoted "a"
  = String (Ascii.ascii_of_nat 34) ("a" +:+ String (Ascii.ascii_of_nat 34) "").
Proof. reflexivity. Qed.

Section TitleFacts.

Let addText (title : string) (text : RichText) : string :=
  match RichText_Text text with
  | Some t => title +:+ Content t
  | None => title
  end.

Lemma append_assoc (s t u : string) : (s +:+ t) +:+ u = s +:+ (t +:+ u).
Proof.
  induction s as [|c s IH]; [done|]. by rewrite !append_cons, IH.
Qed.

Lemma foldl_addText (title : string) (titleArray : list RichText) :
  foldl addText title titleArray = title +:+ foldl addText "" titleArray.
Proof.
  revert title. induction titleArray as [|text rest IH]; intros title.
  - cbn. by rewrite append_empty_r.
  - cbn [foldl]. rewrite (IH (addText title text)), (IH (addText "" text)).
    unfold addText. destruct (RichText_Text text) as [t|]; [|done].
    by rewrite append_assoc.
Qed.

Lemma getTitle_cons (text : RichText) (rest : list RichText) :
  getTitle (text :: rest) = foldl addText "" (text :: rest).
Proof. reflexivity. Qed.

(** X9. The title of two non-empty arrays of runs put together is the two
    titles put together. *)
Theorem getTitle_app (titleArray1 titleArray2 : list RichText) :
  titleArray1 ≠ [] → titleArray2 ≠ [] →
  getTitle (titleArray1 ++ titleArray2)
  = getTitle titleArray1 +:+ getTitle titleArray2.
Proof.
  destruct titleArray1 as [|t1 r1]; [done|].
  destruct titleArray2 as [|t2 r2]; [done|]. intros _ _.
  change ((t1 :: r1) ++ t2 :: r2) with (t1 :: (r1 ++ t2 :: r2)).
  rewrite !getTitle_cons. cbn [foldl]. rewrite foldl_app.
  by rewrite (foldl_addText (foldl _ _ r1)).
Qed.


End TitleFacts.

Lemma getTitle_app_witness :
  getTitle [mkRichText (Some (mkText "My ")); mkRichText None;
            mkRichText (Some (mkText "table"))]
  = "My table".
Proof.
  exact (getTitle_app [mkRichText (Some (mkText "My ")); mkRichText None]
                      [mkRichText (Some (mkText "table"))]
                      ltac:(discriminate) ltac:(discriminate)).
Defined.


(** X11. The title runs the coercion builds read back as the field they
    were built from: when the coerced record holds a Title property under
    a name, the field of that name is the string [getTitle] returns for
    its runs. *)
Theorem getTitle_convert (raw props : gmap string value) (schema : Database)
    (k : string) (runs : list RichText) :
  raw !! "properties" = Some (Map props) →
  PageData_Properties (convertToNotionProperties raw schema).1 !! k
  = Some (TitleProperty runs) →
  props !! k = Some (Str (getTitle runs)).
Proof.
  intros Hraw. rewrite (lookup_convertToNotionProperties _ _ _ _ Hraw).
  destruct (props !! k) as [v|]; [cbn|done]. unfold fieldProperty.
  destruct (Database_Properties schema !! k) as [[]|]; try done;
    destruct v; try done.
  by intros [= <-].
Qed.

Lemma getTitle_convert_witness :
  PageData_Properties (convertToNotionProperties sampleRecord sampleSchema).1
    !! "Name" = Some (TitleProperty [mkRichText (Some (mkText "A"))]) ∧
  ({[ "Name" := Str "A"; "Notes" := Str "n"; "Age" := Float64 25 ]}
     : gmap string value) !! "Name"
  = Some (Str (getTitle [mkRichText (Some (mkText "A"))])).
Proof.
  split; [reflexivity|].
  exact (getTitle_convert sampleRecord _ sampleSchema "Name"
           [mkRichText (Some (mkText "A"))] eq_refl eq_refl).
Defined.

(** X12. The labels [getPropertyTypeString] gives to the fifteen column
    types it names are pairwise different: a label of the listing stands
    for one named type only. *)
Theorem getPropertyTypeString_inj (prop1 prop2 : PropertyConfigType) :
  (∀ tag, prop1 ≠ PropertyConfigTypeOther tag) →
  (∀ tag, prop2 ≠ PropertyConfigTypeOther tag) →
  getPropertyTypeString prop1 = getPropertyTypeString prop2 →
  prop1 = prop2.
Proof.
  intros H1 H2.
  destruct prop1; try (by edestruct H1);
    destruct prop2; try (by edestruct H2); done.
Qed.

Lemma getPropertyTypeString_inj_witness :
  getPropertyTypeString PropertyConfigTypeRichText = "Rich Text" ∧
  PropertyConfigTypeRichText = PropertyConfigTypeRichText.
Proof.
  split; [reflexivity|].
  apply getPropertyTypeString_inj; [discriminate..|reflexivity].
Defined.

(** X13. The sample [getSamplePropertyJSON] prints closes every brace it
    opens for every column type but one: the sample of a phone number
    column opens a brace and never closes it. *)
Theorem getSamplePropertyJSON_braces (prop : PropertyConfigType) :
  countByte "}" (getSamplePropertyJSON prop)
  = countByte "{" (getSamplePropertyJSON prop)
  ↔ prop ≠ PropertyConfigTypePhoneNumber.
Proof. destruct prop; split; intros H; (done || vm_compute in H; done). Qed.

(** ** The insert command, run by run *)

Section InsertRuns.

Context {World : Type}.
Variable Getenv : string → string.
Variable ReadFile : string → string + error.
Variable Unmarshal_slice : string → list RawPageData + error.
Variable Unmarshal_single : string → RawPageData + error.
Variable MarshalIndent : PageCreateRequest → string.
Variable Database_Get : string → string → World → World * (Database + error).
Variable Page_Create :
  string → PageCreateRequest → World → World * (Page + error).

Implicit Types (st : @state World) (evs : list event).

(** [Run], test by test: where it stops, with which trace, or the state in
    which it enters the two loops. *)
Lemma insertCmd_Run_anatomy (fuel : nat) (flags : Flags) (w : World) :
  let apiKey :=
    if (flag_api_key flags =? "")%string then Getenv "NOTION_API_KEY"
    else flag_api_key flags in
  insertCmd_Run Getenv ReadFile Unmarshal_slice Unmarshal_single
    MarshalIndent Database_Get Page_Create fuel flags (mkState w [])
  = if ((flag_db flags =? "") || (flag_data flags =? ""))%string then
      (mkState w [Stdout MsgFlagsRequired], Exited 1%Z)
    else
      match cleanDatabaseID fuel (flag_db flags) with
      | None => (mkState w [], OutOfFuel)
      | Some dbID =>
          if negb (isValidUUID dbID) then
            (mkState w [Stdout MsgInvalidDatabaseID], Exited 1%Z)
          else if (apiKey =? "")%string then
            (mkState w [Stdout MsgNoAPIKey], Exited 1%Z)
          else
            match ReadFile (flag_data flags) with
            | inr err =>
                (mkState w [Stdout (MsgReading (flag_data flags));
                            Stdout (MsgReadError (flag_data flags) err)],
                 Exited 1%Z)
            | inl content =>
                let read :=
                  Stdout (MsgReading (flag_data flags)) ::
                  (if flag_debug flags then [Stdout (MsgRawJSON content)]
                   else []) in
                let fetch rawData :=
                  match Database_Get apiKey dbID w with
                  | (w1, inr err) =>
                      (mkState w1
                         (read ++ [Stdout (MsgFound (length rawData) dbID);
                                   DatabaseGet apiKey dbID;
                                   Stdout (MsgDatabaseError err)]),
                       Exited 1%Z)
                  | (w1, inl database) =>
                      afterFetch MarshalIndent Database_Get Page_Create
                        (flag_debug flags) apiKey dbID database rawData
                        (mkState w1
                           (read ++ [Stdout (MsgFound (length rawData) dbID);
                                     DatabaseGet apiKey dbID]))
                  end in
                match Unmarshal_slice content with
                | inl rawData => fetch rawData
                | inr err =>
                    match Unmarshal_single content with
                    | inl singleRawData => fetch [singleRawData]
                    | inr _ =>
                        (mkState w (read ++ [Stdout (MsgParseError err)]),
                         Exited 1%Z)
                    end
                end
            end
      end.
Proof.
  intros apiKey. unfold insertCmd_Run. fold apiKey.
  unfold bind at 1.
  destruct ((flag_db flags =? "") || (flag_data flags =? ""))%string;
    [reflexivity|]. cbn [when ret].
  unfold bind at 1, call_cleanDatabaseID.
  destruct (cleanDatabaseID fuel (flag_db flags)) as [dbID|]; [|reflexivity].
  unfold bind at 1.
  destruct (isValidUUID dbID); [|reflexivity]. cbn [negb when ret].
  unfold bind at 1.
  destruct (apiKey =? "")%string; [reflexivity|]. cbn [when ret].
  unfold bind at 1. cbn [Println emit world trace app].
  destruct (ReadFile (flag_data flags)) as [content|err]; [|reflexivity].
  destruct (flag_debug flags);
    (destruct (Unmarshal_slice content) as [rawData|err];
     [|destruct (Unmarshal_single content) as [single|errSingle]]);
    cbv zeta; unfold bind at 1; cbn [when ret Println emit world trace app];
    try reflexivity;
    unfold bind at 1; cbn [when ret Println emit world trace app];
    unfold bind at 1; cbn [when ret Println emit world trace app];
    unfold bind at 1, client_Database_Get; cbn [world trace app];
    (destruct (Database_Get apiKey _ w) as [w1 [database|err']];
     reflexivity).
Qed.

Lemma observe_app evs1 evs2 :
  observe (evs1 ++ evs2) = combine (observe evs1) (observe evs2).
Proof.
  unfold observe, combine, remoteCalls, successes, failures. cbn [fst snd].
  by rewrite !List.filter_app, !length_app.
Qed.

Lemma emits_ret {A} (a : A) (post : list event → A → Prop) :
  post [] a → emits (World:=World) (ret a) post.
Proof. intros H st. exists st, a, []. by rewrite app_nil_r. Qed.

Lemma emits_bind {A B} (c : Cmd A) (k : A → Cmd B)
    (mid : list event → A → Prop) (post : list event → B → Prop) :
  emits (World:=World) c mid →
  (∀ a evs1, mid evs1 a → emits (k a) (λ evs2, post (evs1 ++ evs2))) →
  emits (bind c k) post.
Proof.
  intros Hc Hk st.
  destruct (Hc st) as (st1 & a & evs1 & Hrun1 & Htr1 & Ha).
  destruct (Hk a evs1 Ha st1) as (st2 & b & evs2 & Hrun2 & Htr2 & Hb).
  exists st2, b, (evs1 ++ evs2). rewrite (bind_Returned _ _ _ _ _ Hrun1).
  by rewrite Htr2, Htr1, app_assoc.
Qed.

Lemma emits_weaken {A} (c : Cmd A) (post post' : list event → A → Prop) :
  emits (World:=World) c post → (∀ evs a, post evs a → post' evs a) →
  emits c post'.
Proof.
  intros Hc Himp st. destruct (Hc st) as (st' & a & evs & ? & ? & ?).
  exists st', a, evs. auto.
Qed.

Lemma emits_Println (m : message) :
  emits (World:=World) (Println m) (λ evs _, evs = [Stdout m]).
Proof. intros st. by eexists _, tt, _. Qed.

Lemma observes_ret {A} (a : A) (post : list event * nat * nat → A → Prop) :
  post ([], 0, 0) a → observes (World:=World) (ret a) post.
Proof. intros H. by apply emits_ret. Qed.

Lemma observes_bind {A B} (c : Cmd A) (k : A → Cmd B)
    (mid : list event * nat * nat → A → Prop)
    (post : list event * nat * nat → B → Prop) :
  observes (World:=World) c mid →
  (∀ a o1, mid o1 a → observes (k a) (λ o2, post (combine o1 o2))) →
  observes (bind c k) post.
Proof.
  intros Hc Hk. eapply emits_bind; [exact Hc|].
  intros a evs1 Ha st. cbn beta.
  destruct (Hk a _ Ha st) as (st' & b & evs2 & ? & ? & ?).
  exists st', b, evs2. by rewrite observe_app.
Qed.

Lemma observes_weaken {A} (c : Cmd A)
    (post post' : list event * nat * nat → A → Prop) :
  observes (World:=World) c post → (∀ o a, post o a → post' o a) →
  observes c post'.
Proof. intros Hc Himp. eapply emits_weaken; [exact Hc|]. auto. Qed.

(** A print shows as a success, as a failure, or not at all. *)
Lemma observes_Println (m : message) :
  observes (World:=World) (Println m)
    (λ o _, o = ([], if isSuccess (Stdout m) then 1 else 0,
                     if isFailure (Stdout m) then 1 else 0)).
Proof.
  eapply emits_weaken; [apply emits_Println|].
  intros evs _ ->. unfold observe, remoteCalls, successes, failures.
  cbn [List.filter isRemote].
  by destruct (isSuccess (Stdout m)), (isFailure (Stdout m)).
Qed.

Lemma observes_Database_Get (token dbID : string) :
  observes (client_Database_Get Database_Get token dbID)
           (λ o _, o = ([DatabaseGet token dbID], 0, 0)).
Proof.
  intros st. unfold client_Database_Get.
  destruct (Database_Get token dbID (world st)) as [w answer].
  by eexists _, answer, _.
Qed.

Lemma observes_Page_Create (token : string) (request : PageCreateRequest) :
  observes (client_Page_Create Page_Create token request)
           (λ o _, o = ([PageCreate token request], 0, 0)).
Proof.
  intros st. unfold client_Page_Create.
  destruct (Page_Create token request (world st)) as [w answer].
  by eexists _, answer, _.
Qed.

Lemma observes_forEach_quiet {A} (xs : list A) (body : A → Cmd unit) :
  (∀ x, observes (World:=World) (body x) (λ o _, o = ([], 0, 0))) →
  observes (forEach xs body) (λ o _, o = ([], 0, 0)).
Proof.
  intros Hbody. induction xs as [|x xs IH]; cbn [forEach].
  - by apply observes_ret.
  - eapply observes_bind; [apply Hbody|]. intros _ _ ->. exact IH.
Qed.

Lemma observes_warnUnknownProperties (token dbID : string) (pageData : PageData) :
  observes (warnUnknownProperties Database_Get token dbID pageData)
           (λ o _, o = ([DatabaseGet token dbID], 0, 0)).
Proof.
  unfold warnUnknownProperties.
  eapply observes_bind; [apply observes_Database_Get|].
  intros [database|err] _ ->; [|by apply observes_ret].
  eapply observes_weaken.
  - apply observes_forEach_quiet. intros propName.
    destruct (Database_Properties database !! propName).
    + by apply observes_ret.
    + apply observes_Println.
  - by intros _ _ ->.
Qed.

(** The first loop makes no call and reports no page. *)
Lemma observes_convertLoop (debugMode : bool) (database : Database)
    (rawData : list RawPageData) :
  ∀ (i : nat) (pagesData : list PageData),
    observes (World:=World) (convertLoop debugMode database i rawData pagesData)
      (λ o result, o = ([], 0, 0) ∧
                   result = pagesData ++ convertedPages database rawData).
Proof.
  induction rawData as [|raw rest IH]; intros i pagesData; cbn [convertLoop].
  - apply observes_ret. unfold convertedPages. cbn. by rewrite app_nil_r.
  - eapply observes_bind with (mid := λ o _, o = ([], 0, 0)).
    { destruct debugMode; [apply observes_Println | by apply observes_ret]. }
    intros _ _ ->. unfold convertedPages. cbn [omap list_omap].
    destruct (convertToNotionProperties raw database) as [pageData [err|]].
    + eapply observes_bind; [apply observes_Println|]. intros _ _ ->.
      eapply observes_weaken; [apply IH|]. by intros _ _ [-> ->].
    + eapply observes_weaken; [apply IH|].
      intros _ _ [-> ->]. cbn. by rewrite <- app_assoc.
Qed.

(** The second loop, page by page: its calls, and one report for each
    page, a success or a failure; it returns the number of successes. *)
Lemma observes_insertLoop (debugMode : bool) (token dbID : string)
    (pagesData : list PageData) :
  ∀ (i successCount : nat),
    observes (insertLoop MarshalIndent Database_Get Page_Create
                debugMode token dbID i pagesData successCount)
      (λ o n, ∃ s f,
         o = (concat (callsFor debugMode token dbID <$> pagesData), s, f) ∧
         n = successCount + s ∧ s + f = length pagesData).
Proof.
  induction pagesData as [|pageData rest IH]; intros i successCount;
    cbn [insertLoop].
  - apply observes_ret. exists 0, 0. cbn. split_and!; [done|lia|done].
  - eapply observes_bind; [apply observes_Println|]. intros _ _ ->.
    eapply observes_bind
      with (mid := λ o _, o = (if debugMode then [DatabaseGet token dbID]
                               else [], 0, 0)).
    { destruct debugMode;
        [apply observes_warnUnknownProperties | by apply observes_ret]. }
    intros _ _ ->.
    eapply observes_bind with (mid := λ o _, o = ([], 0, 0)).
    { destruct debugMode; [apply observes_Println | by apply observes_ret]. }
    intros _ _ ->.
    eapply observes_bind; [apply observes_Page_Create|].
    intros [response|err] _ ->.
    + eapply observes_bind; [apply observes_Println|]. intros _ _ ->.
      eapply observes_bind with (mid := λ o _, o = ([], 0, 0)).
      { destruct (negb _); [apply observes_Println | by apply observes_ret]. }
      intros _ _ ->.
      eapply observes_weaken; [apply IH|].
      intros _ n (s & f & -> & -> & Hsf). exists (S s), f.
      unfold callsFor, requestFor. destruct debugMode; cbn;
        (split_and!; [done|lia|lia]).
    + eapply observes_bind; [apply observes_Println|]. intros _ _ ->.
      eapply observes_bind with (mid := λ o _, o = ([], 0, 0)).
      { destruct (Strings.Contains _ _); [|by apply observes_ret].
        cbn [when].
        eapply observes_bind; [apply observes_Println|]. intros _ _ ->.
        destruct (i =? 0)%nat; [apply observes_Println | by apply observes_ret]. }
      intros _ _ ->.
      eapply observes_weaken; [apply IH|].
      intros _ n (s & f & -> & -> & Hsf). exists s, (S f).
      unfold callsFor, requestFor. destruct debugMode; cbn;
        (split_and!; [done|lia|lia]).
Qed.

(** After the fetch: the calls of the loops, one report for each page, and
    a summary as the last two lines. *)
Lemma emits_afterFetch (debugMode : bool) (apiKey dbID : string)
    (database : Database) (rawData : list RawPageData) :
  let pages := convertedPages database rawData in
  emits (afterFetch MarshalIndent Database_Get Page_Create
           debugMode apiKey dbID database rawData)
    (λ evs _, ∃ evs' n f,
       evs = evs' ++ [Stdout (MsgFinished n (length pages));
                      Stdout (if (0 <? n)%nat then MsgTip else MsgNoneInserted)] ∧
       observe evs' = (concat (callsFor debugMode apiKey dbID <$> pages), n, f) ∧
       n + f = length pages).
Proof.
  intros pages. unfold afterFetch.
  pose proof (observes_convertLoop debugMode database rawData 0 []) as Hconvert.
  eapply emits_bind; [exact Hconvert|].
  intros pagesData evs1 [Ho1 ->]. cbn [app]. fold pages.
  pose proof (observes_insertLoop debugMode apiKey dbID pages 0 0) as Hinsert.
  eapply emits_bind; [exact Hinsert|].
  intros n evs2 (s & f & Ho2 & -> & Hsf). cbn [Nat.add].
  assert (Hend : ∀ m, emits (World:=World)
            (bind (Println (MsgFinished s (length pages))) (λ _, Println m))
            (λ evs _, evs = [Stdout (MsgFinished s (length pages)); Stdout m])).
  { intros m. eapply emits_bind; [apply emits_Println|]. intros _ _ ->.
    eapply emits_weaken; [apply emits_Println|]. by intros _ _ ->. }
  assert (Hobs : observe (evs1 ++ evs2)
            = (concat (callsFor debugMode apiKey dbID <$> pages), s, f)).
  { rewrite observe_app, Ho1, Ho2. reflexivity. }
  destruct (0 <? s)%nat eqn:Hs;
    (eapply emits_weaken; [apply Hend|]; intros _ _ ->;
     exists (evs1 ++ evs2), s, f; rewrite Hs, <- app_assoc; done).
Qed.

(** A run whose flags, identifier, credential and data file are in order
    reaches the schema fetch, with this trace. *)
Lemma insertCmd_Run_validated (fuel : nat) (flags : Flags) (w : World)
    (dbID content : string) (rawData : list RawPageData) :
  let apiKey :=
    if (flag_api_key flags =? "")%string then Getenv "NOTION_API_KEY"
    else flag_api_key flags in
  flag_db flags ≠ "" →
  flag_data flags ≠ "" →
  cleanDatabaseID fuel (flag_db flags) = Some dbID →
  isValidUUID dbID = true →
  apiKey ≠ "" →
  ReadFile (flag_data flags) = inl content →
  parsedRecords Unmarshal_slice Unmarshal_single content = Some rawData →
  let fetched :=
    Stdout (MsgReading (flag_data flags)) ::
    (if flag_debug flags then [Stdout (MsgRawJSON content)] else []) ++
    [Stdout (MsgFound (length rawData) dbID); DatabaseGet apiKey dbID] in
  insertCmd_Run Getenv ReadFile Unmarshal_slice Unmarshal_single
    MarshalIndent Database_Get Page_Create fuel flags (mkState w [])
  = match Database_Get apiKey dbID w with
    | (w1, inr err) =>
        (mkState w1 (fetched ++ [Stdout (MsgDatabaseError err)]), Exited 1%Z)
    | (w1, inl database) =>
        afterFetch MarshalIndent Database_Get Page_Create
          (flag_debug flags) apiKey dbID database rawData (mkState w1 fetched)
    end.
Proof.
  intros apiKey Hdb%String.eqb_neq Hdata%String.eqb_neq Hclean Hvalid
    Hkey%String.eqb_neq Hread Hparse fetched.
  rewrite insertCmd_Run_anatomy. fold apiKey.
  rewrite Hdb, Hdata, Hclean, Hvalid, Hkey, Hread. cbn [orb negb]. cbv zeta.
  unfold parsedRecords in Hparse. subst fetched.
  destruct (Unmarshal_slice content) as [records|err].
  - injection Hparse as ->.
    destruct (Database_Get apiKey dbID w) as [w1 [database|err']];
      by destruct (flag_debug flags).
  - destruct (Unmarshal_single content) as [single|errSingle]; [|done].
    injection Hparse as <-.
    destruct (Database_Get apiKey dbID w) as [w1 [database|err']];
      by destruct (flag_debug flags).
Qed.


(** X15. A run of insert whose schema fetch fails exits with code 1 after
    that one call: no page is submitted. *)
Theorem insert_fetch_failure (fuel : nat) (flags : Flags) (w w1 : World)
    (dbID content : string) (rawData : list RawPageData) (err : error) :
  let apiKey :=
    if (flag_api_key flags =? "")%string then Getenv "NOTION_API_KEY"
    else flag_api_key flags in
  flag_db flags ≠ "" →
  flag_data flags ≠ "" →
  cleanDatabaseID fuel (flag_db flags) = Some dbID →
  isValidUUID dbID = true →
  apiKey ≠ "" →
  ReadFile (flag_data flags) = inl content →
  parsedRecords Unmarshal_slice Unmarshal_single content = Some rawData →
  Database_Get apiKey dbID w = (w1, inr err) →
  let run :=
    insertCmd_Run Getenv ReadFile Unmarshal_slice Unmarshal_single
      MarshalIndent Database_Get Page_Create fuel flags (mkState w []) in
  exitCode run.2 = Some 1%Z ∧
  remoteCalls (trace run.1) = [DatabaseGet apiKey dbID] ∧
  world run.1 = w1.
Proof.
  intros apiKey Hdb Hdata Hclean Hvalid Hkey Hread Hparse Hget run.
  subst run.
  rewrite (insertCmd_Run_validated _ _ _ _ _ _ Hdb Hdata Hclean Hvalid Hkey
             Hread Hparse).
  fold apiKey. rewrite Hget. by destruct (flag_debug flags).
Qed.

(** What a validated run whose fetch succeeds leaves: it returns, and its
    trace is the events up to the fetch, the events of the loops, and the
    two lines of the summary. *)
Lemma insertCmd_Run_completed (fuel : nat) (flags : Flags) (w w1 : World)
    (dbID content : string) (rawData : list RawPageData)
    (database : Database) :
  let apiKey :=
    if (flag_api_key flags =? "")%string then Getenv "NOTION_API_KEY"
    else flag_api_key flags in
  let pages := convertedPages database rawData in
  flag_db flags ≠ "" →
  flag_data flags ≠ "" →
  cleanDatabaseID fuel (flag_db flags) = Some dbID →
  isValidUUID dbID = true →
  apiKey ≠ "" →
  ReadFile (flag_data flags) = inl content →
  parsedRecords Unmarshal_slice Unmarshal_single content = Some rawData →
  Database_Get apiKey dbID w = (w1, inl database) →
  ∃ st' evs n f,
    insertCmd_Run Getenv ReadFile Unmarshal_slice Unmarshal_single
      MarshalIndent Database_Get Page_Create fuel flags (mkState w [])
    = (st', Returned tt) ∧
    trace st'
    = (Stdout (MsgReading (flag_data flags)) ::
       (if flag_debug flags then [Stdout (MsgRawJSON content)] else []) ++
       [Stdout (MsgFound (length rawData) dbID); DatabaseGet apiKey dbID])
      ++ evs
      ++ [Stdout (MsgFinished n (length pages));
          Stdout (if (0 <? n)%nat then MsgTip else MsgNoneInserted)] ∧
    observe evs
    = (concat (callsFor (flag_debug flags) apiKey dbID <$> pages), n, f) ∧
    n + f = length pages.
Proof.
  intros apiKey pages Hdb Hdata Hclean Hvalid Hkey Hread Hparse Hget.
  rewrite (insertCmd_Run_validated _ _ _ _ _ _ Hdb Hdata Hclean Hvalid Hkey
             Hread Hparse).
  fold apiKey. rewrite Hget.
  match goal with
  | |- ∃ _ _ _ _, afterFetch _ _ _ ?d ?k ?i ?db ?raw ?st = _ ∧ _ =>
      destruct (emits_afterFetch d k i db raw st)
        as (st' & [] & evs & Hrun & Htrace & evs' & n & f & -> & Hobs & Hnf)
  end.
  exists st', evs', n, f. by rewrite Hrun, Htrace.
Qed.

(** X16. The calls of a run of insert that passes its checks and fetches
    the schema, in order: the schema fetch, then for each converted record
    its page creation, preceded in debug mode by one more schema fetch.
    Every call carries the credential chosen (the flag, or else the
    environment variable) and the cleaned identifier, whatever the service
    answers to the page creations. *)
Theorem insert_remote_calls (fuel : nat) (flags : Flags) (w w1 : World)
    (dbID content : string) (rawData : list RawPageData)
    (database : Database) :
  let apiKey :=
    if (flag_api_key flags =? "")%string then Getenv "NOTION_API_KEY"
    else flag_api_key flags in
  flag_db flags ≠ "" →
  flag_data flags ≠ "" →
  cleanDatabaseID fuel (flag_db flags) = Some dbID →
  isValidUUID dbID = true →
  apiKey ≠ "" →
  ReadFile (flag_data flags) = inl content →
  parsedRecords Unmarshal_slice Unmarshal_single content = Some rawData →
  Database_Get apiKey dbID w = (w1, inl database) →
  let run :=
    insertCmd_Run Getenv ReadFile Unmarshal_slice Unmarshal_single
      MarshalIndent Database_Get Page_Create fuel flags (mkState w []) in
  remoteCalls (trace run.1)
  = DatabaseGet apiKey dbID ::
    concat (callsFor (flag_debug flags) apiKey dbID
              <$> convertedPages database rawData).
Proof.
  intros apiKey Hdb Hdata Hclean Hvalid Hkey Hread Hparse Hget run.
  destruct (insertCmd_Run_completed _ _ _ _ _ _ _ _ Hdb Hdata Hclean Hvalid
              Hkey Hread Hparse Hget)
    as (st' & evs & n & f & Hrun & Htrace & [= Hcalls _ _] & _).
  subst run. rewrite Hrun. cbn [fst]. rewrite Htrace.
  unfold remoteCalls in *. rewrite !List.filter_app, Hcalls. fold apiKey.
  destruct (flag_debug flags), (0 <? n)%nat;
    cbn [List.filter isRemote app]; by rewrite app_nil_r.
Qed.

(** X17. The summary tells the truth. A run of insert that passes its
    checks and fetches the schema ends with the summary line and the line
    after it; the first count of the summary is the number of "Success!"
    reports printed before it, its total is the number of converted
    records, each of which got one report, "Success!" or "Failed"; and the
    closing line is the one for no success exactly when the count is 0. *)
Theorem insert_summary (fuel : nat) (flags : Flags) (w w1 : World)
    (dbID content : string) (rawData : list RawPageData)
    (database : Database) :
  let apiKey :=
    if (flag_api_key flags =? "")%string then Getenv "NOTION_API_KEY"
    else flag_api_key flags in
  flag_db flags ≠ "" →
  flag_data flags ≠ "" →
  cleanDatabaseID fuel (flag_db flags) = Some dbID →
  isValidUUID dbID = true →
  apiKey ≠ "" →
  ReadFile (flag_data flags) = inl content →
  parsedRecords Unmarshal_slice Unmarshal_single content = Some rawData →
  Database_Get apiKey dbID w = (w1, inl database) →
  let run :=
    insertCmd_Run Getenv ReadFile Unmarshal_slice Unmarshal_single
      MarshalIndent Database_Get Page_Create fuel flags (mkState w []) in
  let total := length (convertedPages database rawData) in
  ∃ evs n,
    trace run.1
    = evs ++ [Stdout (MsgFinished n total);
              Stdout (if (0 <? n)%nat then MsgTip else MsgNoneInserted)] ∧
    successes evs = n ∧
    successes evs + failures evs = total.
Proof.
  intros apiKey Hdb Hdata Hclean Hvalid Hkey Hread Hparse Hget run total.
  destruct (insertCmd_Run_completed _ _ _ _ _ _ _ _ Hdb Hdata Hclean Hvalid
              Hkey Hread Hparse Hget)
    as (st' & evs & n & f & Hrun & Htrace & [= _ Hn Hf] & Hnf).
  subst run. rewrite Hrun. cbn [fst]. rewrite Htrace.
  eexists _, n. split; [by rewrite app_assoc|].
  unfold successes, failures in *. rewrite !List.filter_app, !length_app, Hn, Hf.
  by destruct (flag_debug flags).
Qed.

(** The keys of a coerced record are columns of the schema. *)
Lemma convert_dom_schema (raw : gmap string value) (schema : Database) :
  dom (PageData_Properties (convertToNotionProperties raw schema).1)
  ⊆ dom (Database_Properties schema).
Proof.
  intros k [p Hp]%elem_of_dom. apply elem_of_dom.
  assert (Hcase : (∃ props, raw !! "properties" = Some (Map props)) ∨
                  (∀ props, raw !! "properties" ≠ Some (Map props))).
  { destruct (raw !! "properties") as [[]|]; eauto; by right. }
  destruct Hcase as [[props Hraw]|Hraw].
  - rewrite (lookup_convertToNotionProperties _ _ _ _ Hraw) in Hp.
    destruct (props !! k) as [v|]; [|done]. cbn in Hp.
    unfold fieldProperty in Hp.
    by destruct (Database_Properties schema !! k).
  - rewrite (convert_malformed_eq _ _ Hraw) in Hp. cbn in Hp.
    by rewrite lookup_empty in Hp.
Qed.

(** X18. Every page a run of insert submits is addressed to the cleaned
    identifier and names only columns of the schema that was fetched. *)
Theorem insert_submits_schema_columns (fuel : nat) (flags : Flags)
    (w w1 : World) (dbID content : string) (rawData : list RawPageData)
    (database : Database) (request : PageCreateRequest) :
  let apiKey :=
    if (flag_api_key flags =? "")%string then Getenv "NOTION_API_KEY"
    else flag_api_key flags in
  flag_db flags ≠ "" →
  flag_data flags ≠ "" →
  cleanDatabaseID fuel (flag_db flags) = Some dbID →
  isValidUUID dbID = true →
  apiKey ≠ "" →
  ReadFile (flag_data flags) = inl content →
  parsedRecords Unmarshal_slice Unmarshal_single content = Some rawData →
  Database_Get apiKey dbID w = (w1, inl database) →
  let run :=
    insertCmd_Run Getenv ReadFile Unmarshal_slice Unmarshal_single
      MarshalIndent Database_Get Page_Create fuel flags (mkState w []) in
  request ∈ submissions (trace run.1) →
  Parent_DatabaseID request = dbID ∧
  dom (Request_Properties request) ⊆ dom (Database_Properties database).
Proof.
  intros apiKey Hdb Hdata Hclean Hvalid Hkey Hread Hparse Hget run.
  subst run.
  rewrite (insertCmd_Run_validated _ _ _ _ _ _ Hdb Hdata Hclean Hvalid Hkey
             Hread Hparse).
  fold apiKey. rewrite Hget.
  match goal with
  | |- context [afterFetch _ _ _ ?d ?k ?i ?db ?raw ?st] =>
      destruct (submits_after_fetch MarshalIndent Database_Get Page_Create
                  d k i db raw st) as (st' & [] & Hrun & Hsub & _)
  end.
  unfold afterFetch. rewrite Hrun. cbn [fst]. rewrite Hsub.
  replace (submissions _) with (@nil PageCreateRequest)
    by by destruct (flag_debug flags).
  cbn [app]. intros (page & -> & Hpage)%list_elem_of_fmap.
  split; [done|]. cbn [requestFor Request_Properties].
  unfold convertedPages in Hpage.
  apply list_elem_of_omap in Hpage as (raw & _ & Hraw).
  pose proof (convert_dom_schema raw database) as Hdom.
  destruct (convertToNotionProperties raw database) as [page' [e|]];
    [done|]. by injection Hraw as <-.
Qed.


End InsertRuns.


Lemma insert_fetch_failure_witness :
  let run :=
    insertCmd_Run Sample.Getenv Sample.ReadFile Sample.Unmarshal_slice
      Sample.Unmarshal_single Sample.MarshalIndent
      SampleFailures.Database_Get Sample.Page_Create
      1 Sample.flags (mkState 0 []) in
  exitCode run.2 = Some 1%Z ∧
  remoteCalls (trace run.1)
  = [DatabaseGet "secret" "1d4a5e7f-e231-80b9-8df2-ddce1ea05ddf"] ∧
  world run.1 = 1.
Proof.
  refine (insert_fetch_failure
            Sample.Getenv Sample.ReadFile Sample.Unmarshal_slice
            Sample.Unmarshal_single Sample.MarshalIndent
            SampleFailures.Database_Get Sample.Page_Create
            1 Sample.flags 0 1 "1d4a5e7f-e231-80b9-8df2-ddce1ea05ddf" "[...]"
            [sampleRecord; sampleMalformed; sampleMismatch]
            "Could not find database with ID"
            _ _ eq_refl eq_refl _ eq_refl eq_refl eq_refl);
    discriminate.
Defined.

Lemma insert_remote_calls_witness :
  remoteCalls (trace Sample.run.1)
  = [DatabaseGet "secret" "1d4a5e7f-e231-80b9-8df2-ddce1ea05ddf";
     PageCreate "secret"
       (requestFor "1d4a5e7f-e231-80b9-8df2-ddce1ea05ddf"
          (convertToNotionProperties sampleRecord sampleSchema).1);
     PageCreate "secret"
       (requestFor "1d4a5e7f-e231-80b9-8df2-ddce1ea05ddf"
          (convertToNotionProperties sampleMismatch sampleSchema).1)].
Proof.
  refine (insert_remote_calls
            Sample.Getenv Sample.ReadFile Sample.Unmarshal_slice
            Sample.Unmarshal_single Sample.MarshalIndent
            Sample.Database_Get Sample.Page_Create
            1 Sample.flags 0 1 "1d4a5e7f-e231-80b9-8df2-ddce1ea05ddf" "[...]"
            [sampleRecord; sampleMalformed; sampleMismatch] sampleSchema
            _ _ eq_refl eq_refl _ eq_refl eq_refl eq_refl);
    discriminate.
Defined.

Lemma insert_summary_witness :
  ∃ evs n,
    trace Sample.run.1
    = evs ++ [Stdout (MsgFinished n 2);
              Stdout (if (0 <? n)%nat then MsgTip else MsgNoneInserted)] ∧
    successes evs = n ∧ successes evs + failures evs = 2.
Proof.
  refine (insert_summary
            Sample.Getenv Sample.ReadFile Sample.Unmarshal_slice
            Sample.Unmarshal_single Sample.MarshalIndent
            Sample.Database_Get Sample.Page_Create
            1 Sample.flags 0 1 "1d4a5e7f-e231-80b9-8df2-ddce1ea05ddf" "[...]"
            [sampleRecord; sampleMalformed; sampleMismatch] sampleSchema
            _ _ eq_refl eq_refl _ eq_refl eq_refl eq_refl);
    discriminate.
Defined.

Lemma insert_submits_schema_columns_witness :
  let request :=
    requestFor "1d4a5e7f-e231-80b9-8df2-ddce1ea05ddf"
      (convertToNotionProperties sampleRecord sampleSchema).1 in
  Parent_DatabaseID request = "1d4a5e7f-e231-80b9-8df2-ddce1ea05ddf" ∧
  dom (Request_Properties request) ⊆ dom (Database_Properties sampleSchema).
Proof.
  intros request.
  refine (insert_submits_schema_columns
            Sample.Getenv Sample.ReadFile Sample.Unmarshal_slice
            Sample.Unmarshal_single Sample.MarshalIndent
            Sample.Database_Get Sample.Page_Create
            1 Sample.flags 0 1 "1d4a5e7f-e231-80b9-8df2-ddce1ea05ddf" "[...]"
            [sampleRecord; sampleMalformed; sampleMismatch] sampleSchema request
            _ _ eq_refl eq_refl _ eq_refl eq_refl eq_refl _);
    try discriminate.
  vm_compute submissions. left.
Defined.

(** ** The inspect command *)

Section InspectRuns.

Context {World : Type}.
Variable Getenv : string → string.
Variable ReadFile : string → string + error.
Variable Unmarshal_slice : string → list RawPageData + error.
Variable Unmarshal_single : string → RawPageData + error.
Variable MarshalIndent : PageCreateRequest → string.
Variable Database_Get : string → string → World → World * (Database + error).
Variable Page_Create :
  string → PageCreateRequest → World → World * (Page + error).



(** An entry of a coerced record stands in a Title, RichText or Number
    column of the schema. *)
Lemma convert_entry_column (raw : gmap string value) (schema : Database)
    (k : string) :
  k ∈ dom (PageData_Properties (convertToNotionProperties raw schema).1) →
  ∃ t, Database_Properties schema !! k = Some t ∧
       (t = PropertyConfigTypeTitle ∨ t = PropertyConfigTypeRichText ∨
        t = PropertyConfigTypeNumber).
Proof.
  intros [p Hp]%elem_of_dom.
  assert (Hcase : (∃ props, raw !! "properties" = Some (Map props)) ∨
                  (∀ props, raw !! "properties" ≠ Some (Map props))).
  { destruct (raw !! "properties") as [[]|]; eauto; by right. }
  destruct Hcase as [[props Hraw]|Hraw].
  - rewrite (lookup_convertToNotionProperties _ _ _ _ Hraw) in Hp.
    destruct (props !! k) as [v|]; [|done]. cbn in Hp.
    unfold fieldProperty in Hp.
    destruct (Database_Properties schema !! k) as [[]|]; try done; eauto.
  - rewrite (convert_malformed_eq _ _ Hraw) in Hp. cbn in Hp.
    by rewrite lookup_empty in Hp.
Qed.

(** The pages a validated run of insert submits. *)
Lemma insert_submissions_eq (fuel : nat) (flags : Flags) (w w1 : World)
    (dbID content : string) (rawData : list RawPageData)
    (database : Database) :
  let apiKey :=
    if (flag_api_key flags =? "")%string then Getenv "NOTION_API_KEY"
    else flag_api_key flags in
  flag_db flags ≠ "" →
  flag_data flags ≠ "" →
  cleanDatabaseID fuel (flag_db flags) = Some dbID →
  isValidUUID dbID = true →
  apiKey ≠ "" →
  ReadFile (flag_data flags) = inl content →
  parsedRecords Unmarshal_slice Unmarshal_single content = Some rawData →
  Database_Get apiKey dbID w = (w1, inl database) →
  submissions
    (trace (insertCmd_Run Getenv ReadFile Unmarshal_slice Unmarshal_single
              MarshalIndent Database_Get Page_Create fuel flags
              (mkState w [])).1)
  = requestFor dbID <$> convertedPages database rawData.
Proof.
  intros apiKey Hdb Hdata Hclean Hvalid Hkey Hread Hparse Hget.
  rewrite (insertCmd_Run_validated _ _ _ _ _ _ _ _ _ _ _ _ _ Hdb Hdata Hclean
             Hvalid Hkey Hread Hparse).
  fold apiKey. rewrite Hget.
  match goal with
  | |- context [afterFetch _ _ _ ?d ?k ?i ?db ?raw ?st] =>
      destruct (submits_after_fetch MarshalIndent Database_Get Page_Create
                  d k i db raw st) as (st' & [] & Hrun & Hsub & _)
  end.
  unfold afterFetch. rewrite Hrun. cbn [fst]. rewrite Hsub.
  by destruct (flag_debug flags).
Qed.

(** X21. What insert writes, inspect lists. Take a run of insert that
    passes its checks and fetches the schema, and a run of inspect with the
    same [--db] and [--api-key] flags against the same state of the
    service. Every property of every page insert submits is a column that
    inspect lists, and lists as "Title", "Rich Text" or "Number". *)
Theorem inspect_lists_submitted_columns (fuel : nat) (flags : Flags)
    (w w1 : World) (dbID content : string) (rawData : list RawPageData)
    (database : Database) (request : PageCreateRequest) (k : string) :
  let apiKey :=
    if (flag_api_key flags =? "")%string then Getenv "NOTION_API_KEY"
    else flag_api_key flags in
  flag_db flags ≠ "" →
  flag_data flags ≠ "" →
  cleanDatabaseID fuel (flag_db flags) = Some dbID →
  isValidUUID dbID = true →
  apiKey ≠ "" →
  ReadFile (flag_data flags) = inl content →
  parsedRecords Unmarshal_slice Unmarshal_single content = Some rawData →
  Database_Get apiKey dbID w = (w1, inl database) →
  let inserted :=
    insertCmd_Run Getenv ReadFile Unmarshal_slice Unmarshal_single
      MarshalIndent Database_Get Page_Create fuel flags (mkState w []) in
  let inspected :=
    inspectCmd_Run Getenv Database_Get fuel
      (flag_db flags) (flag_api_key flags) w in
  request ∈ submissions (trace inserted.1) →
  k ∈ dom (Request_Properties request) →
  ∃ label,
    InspectStdout (InspectProperty k label) ∈ inspected.1.2 ∧
    (label = "Title" ∨ label = "Rich Text" ∨ label = "Number").
Proof.
  intros apiKey Hdb Hdata Hclean Hvalid Hkey Hread Hparse Hget
    inserted inspected.
  subst inserted.
  rewrite (insert_submissions_eq _ _ _ _ _ _ _ _ Hdb Hdata Hclean Hvalid
             Hkey Hread Hparse Hget).
  intros (page & -> & Hpage)%list_elem_of_fmap. cbn [requestFor Request_Properties].
  unfold convertedPages in Hpage.
  apply list_elem_of_omap in Hpage as (raw & _ & Hraw).
  pose proof (convert_entry_column raw database k) as Hcol.
  destruct (convertToNotionProperties raw database) as [page' [e|]]; [done|].
  injection Hraw as <-. intros (t & Ht & Hkind)%Hcol.
  exists (getPropertyTypeString t). split.
  - subst inspected. unfold inspectCmd_Run. fold apiKey.
    apply String.eqb_neq in Hdb, Hkey.
    rewrite Hdb, Hclean, Hvalid, Hkey. cbn [negb]. cbv zeta. rewrite Hget.
    cbn [fst snd]. rewrite !elem_of_app. right; right; left.
    apply list_elem_of_fmap. exists (k, t). split; [done|].
    by apply elem_of_map_to_list.
  - by destruct Hkind as [-> | [-> | ->]]; auto.
Qed.

End InspectRuns.

Lemma inspect_lists_submitted_columns_witness :
  let inspected :=
    inspectCmd_Run Sample.Getenv Sample.Database_Get 1
      "1d4a5e7fe23180b98df2ddce1ea05ddf" "" 0 in
  ∃ label,
    InspectStdout (InspectProperty "Age" label) ∈ inspected.1.2 ∧
    (label = "Title" ∨ label = "Rich Text" ∨ label = "Number").
Proof.
  refine (inspect_lists_submitted_columns
            Sample.Getenv Sample.ReadFile Sample.Unmarshal_slice
            Sample.Unmarshal_single Sample.MarshalIndent
            Sample.Database_Get Sample.Page_Create
            1 Sample.flags 0 1 "1d4a5e7f-e231-80b9-8df2-ddce1ea05ddf" "[...]"
            [sampleRecord; sampleMalformed; sampleMismatch] sampleSchema
            (requestFor "1d4a5e7f-e231-80b9-8df2-ddce1ea05ddf"
               (convertToNotionProperties sampleRecord sampleSchema).1)
            "Age"
            _ _ eq_refl eq_refl _ eq_refl eq_refl eq_refl _ _);
    try discriminate.
  - vm_compute submissions. left.
  - apply elem_of_dom. by exists (NumberProperty 25).
Defined.
